(** * Courier-App: sequence allocation, delivery-note arithmetic, text
    wrapping and waybill layout of [server.js]

    A shallow embedding of the request handlers of [server.js] that create
    shipments and delivery notes, of the start-up [initializeDatabase], and
    of the waybill generator's [wrapText] closure, header box, elements
    section and footer pass.

    Numbers are the runtime's: IEEE 754 binary64, here Rocq's primitive
    [float].  The one exception is the [currentNumber] column of the
    [counters] table, an INTEGER: the numbers the handlers read from it and
    compute from it are integers, kept as [Z] with the rounding of binary64
    written out ([binary64]).

    A handler is a [task]: what it does between two [await]s is one step,
    and every awaited database call is carried out on the one connection
    the server shares between all requests, so that the calls of requests
    in flight interleave ([serve]). *)

From Stdlib Require Import Floats ZArith Ascii String DecimalString.
From stdpp Require Import gmap strings list pretty.

Local Open Scope Z_scope.

(** ** JavaScript values of a request body or a table cell

    The scalars of JSON and of the SQL columns.  The only arrays the
    handlers look into, [elements] and [items], are modelled with the
    request bodies below; an object or array under any other property is
    left out. *)

Inductive jsval :=
| JUndefined
| JNull
| JBool (b : bool)
| JNum (f : float)
| JStr (s : string).

(** ToBoolean: [undefined], [null], [false], [0], [-0], [NaN] and the empty
    string are falsy. *)
Definition truthy (v : jsval) : bool :=
  match v with
  | JUndefined | JNull => false
  | JBool b => b
  | JNum f => negb (PrimFloat.is_zero f || PrimFloat.is_nan f)
  | JStr s => negb (String.eqb s "")
  end.

(** [a || b] *)
Definition js_or (a b : jsval) : jsval := if truthy a then a else b.

(** [typeof v === 'number'] *)
Definition typeof_number (v : jsval) : bool :=
  match v with JNum _ => true | _ => false end.

(** What the handlers take from the JavaScript runtime and from pdf-lib. *)
Inductive font := Helvetica | HelveticaBold.

Class Runtime := {
  (** [parseFloat] of a string: the longest decimal-literal prefix, rounded. *)
  parseFloat_string : string → float;
  (** [f.widthOfTextAtSize(text, size)] *)
  widthOfTextAtSize : font → string → float → float;
  (** [new Date(s).toLocaleString('en-ZA')] *)
  toLocaleString : string → string
}.

(** [parseFloat(v)] is [parseFloat(String(v))].  [String] of a number prints
    the shortest decimal that reads back as that number, and prints both
    zeros as ["0"]; ["undefined"], ["null"], ["true"] and ["false"] start
    with no digit. *)
Definition parseFloat `{rt : Runtime} (v : jsval) : float :=
  match v with
  | JNum f => if PrimFloat.Leibniz.eqb f PrimFloat.neg_zero then PrimFloat.zero else f
  | JStr s => parseFloat_string s
  | _ => PrimFloat.nan
  end.

(** ** Numbers that are integers

    [counter.currentNumber] is read from an INTEGER cell into a number, and
    [newCount] is computed from it by [+ 1]: both are the binary64 nearest
    to an integer (ties to even), which is that integer as long as it has
    at most 53 significant bits.  An INTEGER cell holds a 64-bit integer, so
    these numbers stay far below the binary64 range and below 10^21, where
    [String] prints all the digits of a number. *)
Definition binary64 (z : Z) : Z :=
  let m := Z.abs z in
  let dropped := Z.log2 m - 52 in
  if dropped <=? 0 then z
  else
    let unit := 2 ^ dropped in
    let q := m / unit in
    let r := m mod unit in
    let up := (unit <? 2 * r) || ((unit =? 2 * r) && Z.odd q) in
    Z.sgn z * ((if up then q + 1 else q) * unit).

(** [a + b] on two such numbers *)
Definition plus (a b : Z) : Z := binary64 (a + b).

(** ** What a cell holds

    A value bound to a [?] of an INSERT goes through the driver's binding
    and the affinity of its column, and comes back from a SELECT as a
    JavaScript value again.  The driver binds [undefined] and [null] as
    NULL, a boolean as the integer 1 or 0, a number equal to its 32-bit
    integer part (so also [-0]) as that integer, any other number as a REAL,
    for which SQLite stores NULL when it is NaN, and a string as TEXT.  A
    TEXT column stores a number as its text; an INTEGER or REAL column
    stores a text that is a well-formed integer or real literal as the
    number it denotes. *)

Inductive affinity := TEXT | INTEGER | REAL.

Class Storage := {
  (** the number a text denotes when it is a well-formed integer or real
      literal *)
  numeric_literal : string → option float;
  (** the text of a REAL in a TEXT column *)
  real_to_text : float → string
}.

(** The integer a number is, when it is one. *)
Definition integer_of (f : float) : option Z :=
  match Prim2SF f with
  | S754_zero _ => Some 0
  | S754_finite s m e =>
    let magnitude :=
      if 0 <=? e then Some (Z.pos m * 2 ^ e)
      else if Z.pos m mod 2 ^ (- e) =? 0 then Some (Z.pos m / 2 ^ (- e))
      else None in
    (λ z, if s then - z else z) <$> magnitude
  | _ => None
  end.

Definition is_int32 (z : Z) : bool := (- 2 ^ 31 <=? z) && (z <? 2 ^ 31).

Definition column `{st : Storage} (a : affinity) (v : jsval) : jsval :=
  match v with
  | JUndefined | JNull => JNull
  | JBool b =>
    match a with
    | TEXT => JStr (if b then "1" else "0")
    | _ => JNum (if b then 1 else 0)
    end
  | JNum f =>
    if PrimFloat.is_nan f then JNull
    else
      match a with
      | TEXT =>
        match integer_of f with
        | Some z => JStr (if is_int32 z then pretty z else real_to_text f)
        | None => JStr (real_to_text f)
        end
      | _ => JNum (if PrimFloat.is_zero f then 0 else f)
      end
  | JStr s =>
    match a with
    | TEXT => JStr s
    | _ =>
      match numeric_literal s with
      | Some f => JNum f
      | None => JStr s
      end
    end
  end.
Global Arguments column : simpl never.

(** ** The tables

    A row is the object a SELECT gives for it: each cell is the JavaScript
    value read back from it. *)

Record shipment_row := {
  s_id : Z;
  s_trackingNumber : string;
  s_senderName : jsval;
  s_senderContact : jsval;
  s_senderAddress : jsval;
  s_recipientName : jsval;
  s_recipientContact : jsval;
  s_recipientAddress : jsval;
  s_associatedJobNo : jsval;
  s_ceNumber : jsval;
  s_status : string;
  s_createdAt : string;
  s_courier_charge : jsval
}.

Record shipment_element_row := {
  e_id : Z;
  e_shipment_id : Z;
  e_description : jsval;
  e_quantity : jsval
}.

Record delivery_note_row := {
  n_id : Z;
  n_deliveryNoteNumber : string;
  n_clientName : jsval;
  n_date : jsval;
  n_address : jsval;
  n_contactPerson : jsval;
  n_contactNumber : jsval;
  n_jobNo : jsval;
  n_ceNumber : jsval;
  n_subtotal : jsval;
  n_vat : jsval;
  n_total : jsval;
  n_createdAt : string
}.

Record delivery_note_item_row := {
  i_id : Z;
  i_delivery_note_id : Z;
  i_quantity : jsval;
  i_description : jsval;
  i_price : jsval
}.

(** [counters] maps [name] (the primary key) to [currentNumber];
    [sqlite_sequence] holds the largest rowid each AUTOINCREMENT table has
    handed out. *)
Record db := {
  counters : gmap string Z;
  shipments : list shipment_row;
  shipment_elements : list shipment_element_row;
  delivery_notes : list delivery_note_row;
  delivery_note_items : list delivery_note_item_row;
  sqlite_sequence : gmap string Z
}.

(** ** The connection

    The server keeps one connection.  Outside a transaction a statement
    writes [durable]; [BEGIN TRANSACTION] opens a working copy in [txn] that
    statements read and write until [COMMIT] makes it durable or [ROLLBACK]
    drops it.  [faults] says, statement by statement, whether the storage
    layer rejects the next statement (a failed statement changes nothing;
    an exhausted list means no more rejections). *)
Record conn := {
  durable : db;
  txn : option db;
  faults : list bool
}.

Inductive error :=
| SqliteConstraint  (* UNIQUE or FOREIGN KEY constraint failed *)
| SqliteTransaction (* BEGIN within a transaction, COMMIT or ROLLBACK without one *)
| SqliteFailure     (* the storage layer rejected the statement *)
| TypeError.        (* a property read on null or undefined *)

Inductive outcome (A : Type) :=
| Ok (a : A)
| Throw (e : error).
Arguments Ok {A} a.
Arguments Throw {A} e.

(** One call of [dbRun], [dbGet] or [dbAll] carried out on the connection:
    how it settles, and the connection after it. *)
Definition M (A : Type) : Type := conn → outcome A * conn.

Definition view (c : conn) : db := default (durable c) (txn c).

Definition set_faults (fs : list bool) (c : conn) : conn :=
  {| durable := durable c; txn := txn c; faults := fs |}.

Definition write (d : db) (c : conn) : conn :=
  match txn c with
  | Some _ => {| durable := durable c; txn := Some d; faults := faults c |}
  | None => {| durable := d; txn := None; faults := faults c |}
  end.

(** One statement sent to the connection: rejected by the storage layer, or
    run against what the connection currently sees. *)
Definition statement {A} (run : db → outcome (A * db)) : M A := λ c,
  match faults c with
  | true :: fs => (Throw SqliteFailure, set_faults fs c)
  | fs =>
    let c := set_faults (tail fs) c in
    match run (view c) with
    | Ok (a, d) => (Ok a, write d c)
    | Throw e => (Throw e, c)
    end
  end.

Definition control (run : conn → outcome conn) : M () := λ c,
  match faults c with
  | true :: fs => (Throw SqliteFailure, set_faults fs c)
  | fs =>
    let c := set_faults (tail fs) c in
    match run c with
    | Ok c' => (Ok (), c')
    | Throw e => (Throw e, c)
    end
  end.

(** ** Handlers

    An [async] function up to its next [await]: settled, or waiting for a
    database call with the rest of the function as continuation. *)
Inductive task (A : Type) : Type :=
| Resolve (a : A)
| Reject (e : error)
| Await (B : Type) (call : M B) (k : outcome B → task A).
Arguments Resolve {A} a.
Arguments Reject {A} e.
Arguments Await {A B} call k.

(** [await call] *)
Definition await {B} (call : M B) : task B :=
  Await call (λ r, match r with Ok b => Resolve b | Throw e => Reject e end).

Fixpoint task_bind {A B} (k : A → task B) (t : task A) : task B :=
  match t with
  | Resolve a => k a
  | Reject e => Reject e
  | Await call h => Await call (λ r, task_bind k (h r))
  end.

Global Instance task_ret : MRet task := λ A a, Resolve a.
Global Instance task_mbind : MBind task := λ A B k t, task_bind k t.

Definition throw {A} (e : error) : task A := Reject e.

(** [try { t } catch (error) { h }] *)
Fixpoint try_catch {A} (t : task A) (h : error → task A) : task A :=
  match t with
  | Resolve a => Resolve a
  | Reject e => h e
  | Await call k => Await call (λ r, try_catch (k r) h)
  end.

(** A handler that runs with no other request in flight: each call is
    carried out as soon as it is awaited. *)
Fixpoint run {A} (t : task A) (c : conn) : outcome A * conn :=
  match t with
  | Resolve a => (Ok a, c)
  | Reject e => (Throw e, c)
  | Await call k => let (r, c') := call c in run (k r) c'
  end.

(** The requests in flight.  In one turn the connection carries out the
    call one of them awaits, and that handler goes on to its next [await];
    [schedule] names, turn by turn, the request whose call comes next. *)
Definition turn {A} (t : task A) (c : conn) : task A * conn :=
  match t with
  | Await call k => let (r, c') := call c in (k r, c')
  | _ => (t, c)
  end.

Fixpoint serve {A} (schedule : list nat) (requests : list (task A)) (c : conn)
    : list (task A) * conn :=
  match schedule with
  | [] => (requests, c)
  | i :: rest =>
    match requests !! i with
    | Some t => let (t', c') := turn t c in serve rest (<[i := t']> requests) c'
    | None => serve rest requests c
    end
  end.

(** [dbRun('BEGIN TRANSACTION')] *)
Definition BEGIN : task () := await (control (λ c,
  match txn c with
  | Some _ => Throw SqliteTransaction
  | None => Ok {| durable := durable c; txn := Some (durable c); faults := faults c |}
  end)).

(** [dbRun('COMMIT')] *)
Definition COMMIT : task () := await (control (λ c,
  match txn c with
  | Some d => Ok {| durable := d; txn := None; faults := faults c |}
  | None => Throw SqliteTransaction
  end)).

(** [dbRun('ROLLBACK')] *)
Definition ROLLBACK : task () := await (control (λ c,
  match txn c with
  | Some _ => Ok {| durable := durable c; txn := None; faults := faults c |}
  | None => Throw SqliteTransaction
  end)).

(** ** Statements of the two creation handlers *)

(** [dbGet("SELECT currentNumber FROM counters WHERE name = ?")]: the row's
    [currentNumber] as a number, or [undefined] ([None]) when there is no
    row. *)
Definition select_counter (name : string) : task (option Z) :=
  await (statement (λ d, Ok (binary64 <$> counters d !! name, d))).

(** [UPDATE counters SET currentNumber = ? WHERE name = ?]: changes the row
    when there is one, and nothing otherwise. *)
Definition update_counter (name : string) (n : Z) : task () :=
  await (statement (λ d, Ok ((),
    {| counters := alter (λ _, n) name (counters d);
       shipments := shipments d;
       shipment_elements := shipment_elements d;
       delivery_notes := delivery_notes d;
       delivery_note_items := delivery_note_items d;
       sqlite_sequence := sqlite_sequence d |}))).

(** The rowid an AUTOINCREMENT table hands out next. *)
Definition next_rowid (table : string) (d : db) : Z :=
  default 0 (sqlite_sequence d !! table) + 1.

Definition bump_sequence (table : string) (d : db) : gmap string Z :=
  <[table := next_rowid table d]> (sqlite_sequence d).

(** [INSERT INTO shipments (...) VALUES (...)]: [trackingNumber] is UNIQUE;
    resolves to [lastID]. *)
Definition insert_shipment (row : Z → shipment_row) : task Z :=
  await (statement (λ d,
    let id := next_rowid "shipments" d in
    if bool_decide (s_trackingNumber (row id) ∈ s_trackingNumber <$> shipments d)
    then Throw SqliteConstraint
    else Ok (id,
      {| counters := counters d;
         shipments := shipments d ++ [row id];
         shipment_elements := shipment_elements d;
         delivery_notes := delivery_notes d;
         delivery_note_items := delivery_note_items d;
         sqlite_sequence := bump_sequence "shipments" d |}))).

(** [INSERT INTO shipment_elements (shipment_id, description, quantity)]:
    [shipment_id] references [shipments (id)], both other columns are
    TEXT. *)
Definition insert_shipment_element `{st : Storage} (shipment_id : Z)
    (description quantity : jsval) : task () :=
  await (statement (λ d,
    let id := next_rowid "shipment_elements" d in
    if bool_decide (shipment_id ∈ s_id <$> shipments d)
    then Ok ((),
      {| counters := counters d;
         shipments := shipments d;
         shipment_elements := shipment_elements d ++
           [{| e_id := id; e_shipment_id := shipment_id;
               e_description := column TEXT description;
               e_quantity := column TEXT quantity |}];
         delivery_notes := delivery_notes d;
         delivery_note_items := delivery_note_items d;
         sqlite_sequence := bump_sequence "shipment_elements" d |})
    else Throw SqliteConstraint)).

(** [INSERT INTO delivery_notes (...) VALUES (...)]: [deliveryNoteNumber] is
    UNIQUE; resolves to [lastID]. *)
Definition insert_delivery_note (row : Z → delivery_note_row) : task Z :=
  await (statement (λ d,
    let id := next_rowid "delivery_notes" d in
    if bool_decide (n_deliveryNoteNumber (row id) ∈ n_deliveryNoteNumber <$> delivery_notes d)
    then Throw SqliteConstraint
    else Ok (id,
      {| counters := counters d;
         shipments := shipments d;
         shipment_elements := shipment_elements d;
         delivery_notes := delivery_notes d ++ [row id];
         delivery_note_items := delivery_note_items d;
         sqlite_sequence := bump_sequence "delivery_notes" d |}))).

(** [INSERT INTO delivery_note_items (delivery_note_id, quantity, description,
    price)]: [delivery_note_id] references [delivery_notes(id)]; [quantity]
    is an INTEGER column, [description] TEXT, [price] REAL. *)
Definition insert_delivery_note_item `{st : Storage} (note_id : Z)
    (quantity description price : jsval) : task () :=
  await (statement (λ d,
    let id := next_rowid "delivery_note_items" d in
    if bool_decide (note_id ∈ n_id <$> delivery_notes d)
    then Ok ((),
      {| counters := counters d;
         shipments := shipments d;
         shipment_elements := shipment_elements d;
         delivery_notes := delivery_notes d;
         delivery_note_items := delivery_note_items d ++
           [{| i_id := id; i_delivery_note_id := note_id;
               i_quantity := column INTEGER quantity;
               i_description := column TEXT description;
               i_price := column REAL price |}];
         sqlite_sequence := bump_sequence "delivery_note_items" d |})
    else Throw SqliteConstraint)).

(** ** Request bodies

    A member of [elements] or [items] is [None] when it is [null] (reading a
    property of it throws) and otherwise carries the properties the handler
    reads, [JUndefined] for a missing one.  The array itself is [None] when
    the body has no array under that key. *)

Record element_body := {
  el_description : jsval;
  el_quantity : jsval
}.

Record shipment_body := {
  senderName : jsval;
  senderContact : jsval;
  senderAddress : jsval;
  recipientName : jsval;
  recipientContact : jsval;
  recipientAddress : jsval;
  associatedJobNo : jsval;
  ceNumber : jsval;
  elements : option (list (option element_body));
  courier_charge : jsval
}.

Record item_body := {
  it_quantity : jsval;
  it_description : jsval;
  it_price : jsval
}.

Record delivery_note_body := {
  clientName : jsval;
  date : jsval;
  address : jsval;
  contactPerson : jsval;
  contactNumber : jsval;
  jobNo : jsval;
  dn_ceNumber : jsval;
  items : option (list (option item_body))
}.

Inductive response :=
| Created (trackingNumber : string)           (* 201, POST /shipments *)
| CreatedNote (id : Z) (deliveryNoteNumber : string) (* 201, POST /delivery-notes *)
| BadRequest                                  (* 400 *)
| ServerError (e : error).                    (* 500 *)

(** ** POST /shipments

    The handler of the SQLite server.  The MySQL server's handler runs the
    same statements in the same order, but on a connection of its own that
    it takes from the pool for the request, its SELECT carrying FOR
    UPDATE. *)

(** [for (const element of elements) if (element.description &&
    element.quantity) await dbRun(INSERT ...)] *)
Fixpoint insert_elements `{st : Storage} (shipmentId : Z)
    (els : list (option element_body)) : task () :=
  match els with
  | [] => mret ()
  | None :: _ => throw TypeError
  | Some element :: rest =>
    (if truthy (el_description element) && truthy (el_quantity element)
     then insert_shipment_element shipmentId (el_description element) (el_quantity element)
     else mret ());;
    insert_elements shipmentId rest
  end.

Definition post_shipments `{rt : Runtime} `{st : Storage}
    (body : shipment_body) (now : string) : task response :=
  if negb (truthy (senderName body)) || negb (truthy (senderAddress body))
     || negb (truthy (recipientName body)) || negb (truthy (recipientAddress body))
  then mret BadRequest
  else
    try_catch
      (BEGIN;;
       counter ← select_counter "shipmentCounter";
       let newCount := plus (default 1000 counter) 1 in
       let trackingNumber := "T" +:+ pretty newCount in
       let finalCharge := js_or (JNum (parseFloat (courier_charge body))) JNull in
       shipmentId ← insert_shipment (λ id,
         {| s_id := id;
            s_trackingNumber := trackingNumber;
            s_senderName := column TEXT (senderName body);
            s_senderContact := column TEXT (js_or (senderContact body) JNull);
            s_senderAddress := column TEXT (senderAddress body);
            s_recipientName := column TEXT (recipientName body);
            s_recipientContact := column TEXT (js_or (recipientContact body) JNull);
            s_recipientAddress := column TEXT (recipientAddress body);
            s_associatedJobNo := column TEXT (js_or (associatedJobNo body) JNull);
            s_ceNumber := column TEXT (js_or (ceNumber body) JNull);
            s_status := "Pending";
            s_createdAt := now;
            s_courier_charge := column REAL finalCharge |});
       match elements body with
       | Some els => insert_elements shipmentId els
       | None => mret ()
       end;;
       update_counter "shipmentCounter" newCount;;
       COMMIT;;
       mret (Created trackingNumber))
      (λ error, ROLLBACK;; mret (ServerError error)).

(** ** POST /delivery-notes *)

(** The literal [0.15]: the binary64 nearest to it. *)
Definition vat_rate : float := 0x1.3333333333333p-3%float.

(** [items.reduce((acc, item) => acc + parseFloat(item.quantity) *
    parseFloat(item.price), 0)]; reading a property of a [null] item throws. *)
Fixpoint reduce_subtotal `{rt : Runtime} (its : list (option item_body)) (acc : float)
    : outcome float :=
  match its with
  | [] => Ok acc
  | None :: _ => Throw TypeError
  | Some item :: rest =>
    reduce_subtotal rest
      (acc + parseFloat (it_quantity item) * parseFloat (it_price item))%float
  end.

(** [for (const item of items) if (item.description && item.quantity &&
    typeof item.price === 'number') await dbRun(INSERT ...)] *)
Fixpoint insert_items `{st : Storage} (noteId : Z) (its : list (option item_body))
    : task () :=
  match its with
  | [] => mret ()
  | None :: _ => throw TypeError
  | Some item :: rest =>
    (if truthy (it_description item) && truthy (it_quantity item)
        && typeof_number (it_price item)
     then insert_delivery_note_item noteId
            (it_quantity item) (it_description item) (it_price item)
     else mret ());;
    insert_items noteId rest
  end.

Definition post_delivery_notes `{rt : Runtime} `{st : Storage}
    (body : delivery_note_body) (now : string) : task response :=
  match items body with
  | None => mret BadRequest
  | Some its =>
    if negb (truthy (clientName body)) || negb (truthy (date body))
       || negb (truthy (address body))
    then mret BadRequest
    else
      try_catch
        (BEGIN;;
         subtotal ← (match reduce_subtotal its 0%float with
                     | Ok s => mret s
                     | Throw e => throw e
                     end);
         let vat := (subtotal * vat_rate)%float in
         let total := (subtotal + vat)%float in
         counter ← select_counter "deliveryNoteCounter";
         let newCount := plus (default 1000 counter) 1 in
         let deliveryNoteNumber := "DN" +:+ pretty newCount in
         noteId ← insert_delivery_note (λ id,
           {| n_id := id;
              n_deliveryNoteNumber := deliveryNoteNumber;
              n_clientName := column TEXT (clientName body);
              n_date := column TEXT (date body);
              n_address := column TEXT (address body);
              n_contactPerson := column TEXT (contactPerson body);
              n_contactNumber := column TEXT (contactNumber body);
              n_jobNo := column TEXT (jobNo body);
              n_ceNumber := column TEXT (dn_ceNumber body);
              n_subtotal := column REAL (JNum subtotal);
              n_vat := column REAL (JNum vat);
              n_total := column REAL (JNum total);
              n_createdAt := now |});
         insert_items noteId its;;
         update_counter "deliveryNoteCounter" newCount;;
         COMMIT;;
         mret (CreatedNote noteId deliveryNoteNumber))
        (λ error, ROLLBACK;; mret (ServerError error))
  end.

(** ** Start-up

    [startServer] awaits [initializeDatabase] before it lets the server
    listen, and exits the process when it throws. *)

(** [PRAGMA foreign_keys = ON] and the [CREATE TABLE IF NOT EXISTS]
    statements: [db] has its tables from the start, with the foreign keys
    enforced, so on [db] each of them changes nothing. *)
Definition schema_statement : task () := await (statement (λ d, Ok ((), d))).

(** [INSERT OR IGNORE INTO counters (name, currentNumber) VALUES (name, n)] *)
Definition insert_or_ignore_counter (name : string) (n : Z) : task () :=
  await (statement (λ d, Ok ((),
    {| counters := match counters d !! name with
                   | Some _ => counters d
                   | None => <[name := n]> (counters d)
                   end;
       shipments := shipments d;
       shipment_elements := shipment_elements d;
       delivery_notes := delivery_notes d;
       delivery_note_items := delivery_note_items d;
       sqlite_sequence := sqlite_sequence d |}))).

Definition initializeDatabase : task () :=
  try_catch
    (schema_statement;;  (* PRAGMA foreign_keys *)
     schema_statement;;  (* users *)
     schema_statement;;  (* chaseJobs *)
     schema_statement;;  (* job_ce_numbers *)
     schema_statement;;  (* shipments *)
     schema_statement;;  (* shipment_elements *)
     schema_statement;;  (* addresses *)
     schema_statement;;  (* elements *)
     schema_statement;;  (* settings *)
     schema_statement;;  (* counters *)
     insert_or_ignore_counter "shipmentCounter" 1000;;
     schema_statement;;  (* delivery_notes *)
     schema_statement;;  (* delivery_note_items *)
     insert_or_ignore_counter "deliveryNoteCounter" 1000)
    (λ error, throw error).

(** ** The waybill generator: [wrapText] *)

(** [s.split(' ')] *)
Fixpoint split_space (s : string) : list string :=
  match s with
  | EmptyString => [""]
  | String c r =>
    if Ascii.eqb c " "%char then "" :: split_space r
    else match split_space r with
         | w :: ws => String c w :: ws
         | [] => [String c ""]
         end
  end.

(** The loop of [wrapText] over the remaining words, then the final
    [lines.push(currentLine)]. *)
Fixpoint wrap_words `{rt : Runtime} (f : font) (fontSize maxWidth : float)
    (words lines : list string) (currentLine : string) : list string :=
  match words with
  | [] => lines ++ [currentLine]
  | word :: rest =>
    let testLine :=
      currentLine +:+ (if String.eqb currentLine "" then "" else " ") +:+ word in
    let testWidth := widthOfTextAtSize f testLine fontSize in
    if (maxWidth <? testWidth)%float
    then wrap_words f fontSize maxWidth rest (lines ++ [currentLine]) word
    else wrap_words f fontSize maxWidth rest lines testLine
  end.

(** [wrapText] of the SQLite server: [text] is [None] for [null] or
    [undefined]; [words = text ? String(text).split(' ') : []]. *)
Definition wrapText `{rt : Runtime} (text : option string) (f : font)
    (fontSize maxWidth : float) : list string :=
  let words :=
    match text with
    | Some s => if String.eqb s "" then [] else split_space s
    | None => []
    end in
  wrap_words f fontSize maxWidth words [] "".

(** [s.replace(/(\r\n|\n|\r)/gm, " ")] *)
Fixpoint replace_line_breaks (s : string) : string :=
  match s with
  | EmptyString => EmptyString
  | String c r =>
    if Ascii.eqb c "013"%char then
      match r with
      | String c' r' =>
        if Ascii.eqb c' "010"%char then String " "%char (replace_line_breaks r')
        else String " "%char (replace_line_breaks r)
      | EmptyString => String " "%char EmptyString
      end
    else if Ascii.eqb c "010"%char then String " "%char (replace_line_breaks r)
    else String c (replace_line_breaks r)
  end.

(** [wrapText] of the MySQL server: [sanitizedText = text ?
    String(text).replace(...) : ""; words = sanitizedText.split(' ')]. *)
Definition wrapText_mysql `{rt : Runtime} (text : option string) (f : font)
    (fontSize maxWidth : float) : list string :=
  let sanitizedText :=
    match text with
    | Some s => if String.eqb s "" then "" else replace_line_breaks s
    | None => ""
    end in
  wrap_words f fontSize maxWidth (split_space sanitizedText) [] "".

(** ** The waybill generator: header box *)

(** [let headerBoxHeight = 70; if (shipment.courier_charge) headerBoxHeight += 20;] *)
Definition headerBoxHeight (shipment : shipment_row) : float :=
  let headerBoxHeight := 70%float in
  if truthy (s_courier_charge shipment) then (headerBoxHeight + 20)%float
  else headerBoxHeight.

(** How many of job number, CE number and courier charge the shipment has. *)
Definition optional_fields_present (shipment : shipment_row) : nat :=
  ((if truthy (s_associatedJobNo shipment) then 1 else 0)
   + (if truthy (s_ceNumber shipment) then 1 else 0)
   + (if truthy (s_courier_charge shipment) then 1 else 0))%nat.

Fixpoint float_of_nat (n : nat) : float :=
  match n with
  | O => 0%float
  | S k => (float_of_nat k + 1)%float
  end.

(** ** The waybill generator: the pass over the finished pages *)

Definition rgb : Type := float * float * float.

(** The drawing calls the pass makes on a page, with their options. *)
Inductive draw_op :=
| DrawText (text : string) (x y : float) (f : font) (size : float) (color : option rgb)
| DrawRectangle (x y width height : float) (borderColor : rgb) (borderWidth : float)
| DrawLine (start_x start_y end_x end_y : float) (thickness : float) (color : rgb).

Record page := {
  page_width : float;
  page_height : float;
  content : list draw_op
}.

Definition draw (op : draw_op) (p : page) : page :=
  {| page_width := page_width p; page_height := page_height p;
     content := content p ++ [op] |}.

Definition padding : float := 40%float.
Definition grey : rgb := (0.5, 0.5, 0.5)%float.
Definition black : rgb := (0, 0, 0)%float.

(** [settingsRows.reduce((acc, row) => ({ ...acc, [row.key]: row.value }), {})];
    a value is text or NULL. *)
Definition settings_of_rows (rows : list (string * option string))
    : gmap string (option string) :=
  foldl (λ acc row, <[row.1 := row.2]> acc) ∅ rows.

(** [settings.disclaimer] when it is truthy. *)
Definition disclaimer (settings : gmap string (option string)) : option string :=
  match settings !! "disclaimer" with
  | Some (Some s) => if String.eqb s "" then None else Some s
  | _ => None
  end.

(** [shipment.createdAt ? new Date(shipment.createdAt).toLocaleString('en-ZA') : 'N/A'] *)
Definition creationDate `{rt : Runtime} (shipment : shipment_row) : string :=
  if String.eqb (s_createdAt shipment) "" then "N/A"
  else toLocaleString (s_createdAt shipment).

(** The four drawing calls under [if (i === pages.length - 1)]. *)
Definition signature_block (width pageWidth : float) : list draw_op :=
  let signatureY := (padding + 80)%float in
  [ DrawRectangle padding (signatureY - 60) (pageWidth - padding * 2) 60 black 1.5;
    DrawLine padding (signatureY - 20) (pageWidth - padding) (signatureY - 20)
      0.5 (0.75, 0.75, 0.75)%float;
    DrawText "Sender Signature:" (padding + 10) (signatureY - 15) Helvetica 10 None;
    DrawText "Recipient Signature:" (width / 2 + 10) (signatureY - 15) Helvetica 10 None
  ]%float.

Definition pageNumberText (i n : nat) : string :=
  "Page " +:+ pretty (i + 1)%nat +:+ " of " +:+ pretty n.

(** What one iteration of the loop draws on [pages[i]], in order; [n] is
    [pages.length]. *)
Definition footer `{rt : Runtime} (width : float) (settings : gmap string (option string))
    (shipment : shipment_row) (n i : nat) (pageWidth : float) : list draw_op :=
  (if bool_decide (i = (n - 1)%nat) then signature_block width pageWidth else [])
  ++ (let disclaimerY := padding in
      match disclaimer settings with
      | Some text => [DrawText text padding disclaimerY Helvetica 8 (Some grey)]
      | None => []
      end
      ++ (let dateWidth := widthOfTextAtSize Helvetica (creationDate shipment) 10 in
          [DrawText (creationDate shipment) (pageWidth - padding - dateWidth)
             disclaimerY Helvetica 10 (Some grey)])
      ++ (let pageNumberWidth := widthOfTextAtSize Helvetica (pageNumberText i n) 10 in
          [DrawText (pageNumberText i n) ((pageWidth - pageNumberWidth) / 2)
             disclaimerY Helvetica 10 (Some grey)]))%float.

Definition stamp `{rt : Runtime} (width : float) (settings : gmap string (option string))
    (shipment : shipment_row) (n i : nat) (p : page) : page :=
  foldl (λ p op, draw op p) p (footer width settings shipment n i (page_width p)).

(** [for (let i = 0; i < pages.length; i++) { const page = pages[i]; ... }]:
    [remaining] iterations from index [i]; the drawing calls change
    [pages[i]] in place. *)
Fixpoint footer_loop `{rt : Runtime} (width : float) (settings : gmap string (option string))
    (shipment : shipment_row) (remaining i : nat) (pages : list page) : list page :=
  match remaining with
  | O => pages
  | S remaining' =>
    footer_loop width settings shipment remaining' (S i)
      match pages !! i with
      | Some p => <[i := stamp width settings shipment (length pages) i p]> pages
      | None => pages
      end
  end.

Definition finalize `{rt : Runtime} (width : float) (settings : gmap string (option string))
    (shipment : shipment_row) (pages : list page) : list page :=
  footer_loop width settings shipment (length pages) 0 pages.

(** ** The waybill generator: the elements section *)

(** [String(n)] of a number, taken from the runtime. *)
Class Formatting := {
  number_to_string : float → string
}.

(** [String(v)], also what a template literal makes of [v]. *)
Definition ToString `{fm : Formatting} (v : jsval) : string :=
  match v with
  | JUndefined => "undefined"
  | JNull => "null"
  | JBool true => "true"
  | JBool false => "false"
  | JNum f => number_to_string f
  | JStr s => s
  end.

(** [Math.max(a, b)]: NaN when either is, and [+0] above [-0]. *)
Definition Math_max (a b : float) : float :=
  if PrimFloat.is_nan a || PrimFloat.is_nan b then PrimFloat.nan
  else if (a <? b)%float then b
  else if (b <? a)%float then a
  else if PrimFloat.is_zero a && PrimFloat.get_sign a then b
  else a.

(** The document while it is laid out: [pdfDoc.getPages()] is the finished
    pages followed by [currentPage]; [y] is the cursor. *)
Record layout := {
  lay_finished : list page;
  lay_page : page;
  lay_y : float
}.

Definition pages_of (l : layout) : list page := lay_finished l ++ [lay_page l].

(** [currentPage = pdfDoc.addPage(); y = currentPage.getSize().height -
    padding;] where [blank] is the page [addPage()] makes. *)
Definition addPage (blank : page) (l : layout) : layout :=
  {| lay_finished := lay_finished l ++ [lay_page l];
     lay_page := blank;
     lay_y := (page_height blank - padding)%float |}.

(** A drawing call on [currentPage]. *)
Definition draw_on (op : draw_op) (l : layout) : layout :=
  {| lay_finished := lay_finished l;
     lay_page := draw op (lay_page l);
     lay_y := lay_y l |}.

Definition move_to (y : float) (l : layout) : layout :=
  {| lay_finished := lay_finished l; lay_page := lay_page l; lay_y := y |}.

(** [descriptionLines.forEach(line => { currentPage.drawText(line, ...);
    currentItemY -= 15; })] from [currentItemY] on. *)
Fixpoint description_ops (lines : list string) (currentItemY : float) : list draw_op :=
  match lines with
  | [] => []
  | line :: rest =>
    DrawText line (padding + 20)%float currentItemY Helvetica 10 None
    :: description_ops rest (currentItemY - 15)%float
  end.

(** The drawing calls of one element with the cursor at [y]. *)
Definition row_ops `{fm : Formatting} (width y : float) (descriptionLines : list string)
    (item : shipment_element_row) : list draw_op :=
  description_ops descriptionLines (y - 10)%float
  ++ [ DrawText ("Qty: " +:+ ToString (js_or (e_quantity item) (JStr "N/A")))
         (width - padding - 150) (y - 10) Helvetica 10 None;
       DrawRectangle (width - padding - 100) (y - 12) 15 15 black 1;
       DrawText "Packed" (width - padding - 80) (y - 10) Helvetica 10 None ]%float.

(** [wrapText(item.description || 'N/A', font, 10, width - padding * 2 - 180)],
    with [words = text ? String(text).split(' ') : []] read on the value
    [text]. *)
Definition item_lines `{rt : Runtime} `{fm : Formatting} (width : float)
    (item : shipment_element_row) : list string :=
  let text := js_or (e_description item) (JStr "N/A") in
  let words := if truthy text then split_space (ToString text) else [] in
  wrap_words Helvetica 10 (width - padding * 2 - 180)%float words [] "".

(** [Math.max(30, (descriptionLines.length * 15) + 15)] *)
Definition itemHeight (descriptionLines : list string) : float :=
  Math_max 30 (float_of_nat (length descriptionLines) * 15 + 15)%float.

(** One iteration of [for (const item of elements)]. *)
Definition item_row `{rt : Runtime} `{fm : Formatting} (blank : page) (width : float)
    (l : layout) (item : shipment_element_row) : layout :=
  let bottomMargin := (padding + 150)%float in
  let descriptionLines := item_lines width item in
  let l :=
    if (lay_y l - itemHeight descriptionLines <? bottomMargin)%float
    then addPage blank l else l in
  let l := foldl (λ l op, draw_on op l) l (row_ops width (lay_y l) descriptionLines item) in
  move_to (lay_y l - itemHeight descriptionLines)%float l.

(** [if (elements && elements.length > 0) { ... }]: the heading, then the
    rows. *)
Definition elements_section `{rt : Runtime} `{fm : Formatting} (blank : page)
    (width : float) (l : layout) (elements : list shipment_element_row) : layout :=
  match elements with
  | [] => l
  | _ =>
    let bottomMargin := (padding + 150)%float in
    let l := if (lay_y l <? bottomMargin + 40)%float then addPage blank l else l in
    let l := draw_on (DrawText "ELEMENTS / ITEMS:" (padding + 10) (lay_y l - 20)
                        HelveticaBold 12 None)%float l in
    let l := move_to (lay_y l - 40)%float l in
    foldl (item_row blank width) l elements
  end.

(** * Specification vocabulary *)

(** [wp t c Q]: the handler [t], run from [c] with no other request in
    flight, ends in an outcome and a connection that satisfy [Q]. *)
Definition wp {A} (t : task A) (c : conn) (Q : outcome A → conn → Prop) : Prop :=
  Q (run t c).1 (run t c).2.

(** The connection is inside a transaction begun on [d0] and sees [d]. *)
Definition in_txn (d0 d : db) (c : conn) : Prop :=
  durable c = d0 ∧ txn c = Some d.

(** The connection is outside any transaction, on [d0]. *)
Definition idle (d0 : db) (c : conn) : Prop :=
  durable c = d0 ∧ txn c = None.

(** [d'] differs from [d] at most in [shipment_elements] and the rowid
    bookkeeping. *)
Definition elements_only (d d' : db) : Prop :=
  counters d' = counters d ∧ shipments d' = shipments d
  ∧ delivery_notes d' = delivery_notes d
  ∧ delivery_note_items d' = delivery_note_items d.

(** The primitive float an INTEGER cell holding [0 <= z < 2^63] is read
    into. *)
Definition float_of_cell (z : Z) : float := PrimFloat.of_uint63 (Uint63.of_Z z).

(** The number an allocation on the counter [name] computes from the
    tables [d]. *)
Definition newCount_of (name : string) (d : db) : Z :=
  plus (default 1000 (binary64 <$> counters d !! name)) 1.

(** The facts about a successful [POST /shipments]: [d] before, [d'] after. *)
Definition shipment_created (d d' : db) (trackingNumber : string) : Prop :=
  trackingNumber = "T" +:+ pretty (newCount_of "shipmentCounter" d)
  ∧ counters d'
    = alter (λ _, newCount_of "shipmentCounter" d) "shipmentCounter" (counters d)
  ∧ (trackingNumber ∉ s_trackingNumber <$> shipments d)
  ∧ (∃ row, shipments d' = shipments d ++ [row]
            ∧ s_trackingNumber row = trackingNumber)
  ∧ delivery_notes d' = delivery_notes d
  ∧ delivery_note_items d' = delivery_note_items d.

(** What [POST /shipments] guarantees when run outside a transaction on
    [d0], by outcome; a rejected promise ([Throw]) is a failed ROLLBACK,
    whose transaction, if one was begun, stays open. *)
Definition shipments_post (d0 : db) (o : outcome response) (c' : conn) : Prop :=
  match o with
  | Ok (Created trackingNumber) =>
    ∃ d', idle d' c' ∧ shipment_created d0 d' trackingNumber
  | Ok (CreatedNote _ _) => False
  | Ok BadRequest | Ok (ServerError _) => idle d0 c'
  | Throw _ => durable c' = d0
  end.

(** The handlers' [catch] block, as a postcondition of the [try] block. *)
Definition caught (Q : outcome response → conn → Prop)
    (o : outcome response) (c : conn) : Prop :=
  match o with
  | Ok a => Q (Ok a) c
  | Throw e => wp (ROLLBACK;; mret (ServerError e)) c Q
  end.

(** The sum the handler computes over items that are objects. *)
Definition subtotal_of `{rt : Runtime} (objs : list item_body) (acc : float) : float :=
  foldl (λ acc item,
           (acc + parseFloat (it_quantity item) * parseFloat (it_price item))%float)
        acc objs.

(** The test that guards the INSERT of an item. *)
Definition kept (item : item_body) : bool :=
  truthy (it_description item) && truthy (it_quantity item)
  && typeof_number (it_price item).

(** The three cells an item's values make in [delivery_note_items], and the
    three cells of a stored item row. *)
Definition stored_cells `{st : Storage} (item : item_body) : jsval * jsval * jsval :=
  (column INTEGER (it_quantity item), column TEXT (it_description item),
   column REAL (it_price item)).
Definition row_cells (r : delivery_note_item_row) : jsval * jsval * jsval :=
  (i_quantity r, i_description r, i_price r).

(** [d'] differs from [d] at most in [delivery_note_items] and the rowid
    bookkeeping. *)
Definition items_only (d d' : db) : Prop :=
  counters d' = counters d ∧ shipments d' = shipments d
  ∧ shipment_elements d' = shipment_elements d
  ∧ delivery_notes d' = delivery_notes d.

(** The facts about a successful [POST /delivery-notes] whose items are the
    objects [objs]: [d] before, [d'] after. *)
Definition note_created `{rt : Runtime} `{st : Storage} (objs : list item_body)
    (d d' : db) (id : Z) (deliveryNoteNumber : string) : Prop :=
  let subtotal := subtotal_of objs 0%float in
  deliveryNoteNumber = "DN" +:+ pretty (newCount_of "deliveryNoteCounter" d)
  ∧ counters d'
    = alter (λ _, newCount_of "deliveryNoteCounter" d) "deliveryNoteCounter" (counters d)
  ∧ (deliveryNoteNumber ∉ n_deliveryNoteNumber <$> delivery_notes d)
  ∧ (∃ row, delivery_notes d' = delivery_notes d ++ [row]
            ∧ n_id row = id
            ∧ n_deliveryNoteNumber row = deliveryNoteNumber
            ∧ n_subtotal row = column REAL (JNum subtotal)
            ∧ n_vat row = column REAL (JNum (subtotal * vat_rate)%float)
            ∧ n_total row = column REAL (JNum (subtotal + subtotal * vat_rate)%float))
  ∧ (∃ rows, delivery_note_items d' = delivery_note_items d ++ rows
             ∧ row_cells <$> rows = stored_cells <$> filter (λ item, kept item = true) objs
             ∧ Forall (λ r, i_delivery_note_id r = id) rows)
  ∧ shipments d' = shipments d
  ∧ shipment_elements d' = shipment_elements d.

(** The same for [POST /delivery-notes]. *)
Definition notes_post `{rt : Runtime} `{st : Storage} (body : delivery_note_body)
    (d0 : db) (o : outcome response) (c' : conn) : Prop :=
  match o with
  | Ok (CreatedNote id deliveryNoteNumber) =>
    ∃ d' objs, idle d' c' ∧ items body = Some (Some <$> objs)
               ∧ note_created objs d0 d' id deliveryNoteNumber
  | Ok (Created _) => False
  | Ok BadRequest | Ok (ServerError _) => idle d0 c'
  | Throw _ => durable c' = d0
  end.

(** What [INSERT OR IGNORE] makes of the counters. *)
Definition ensure_counter (name : string) (n : Z) (cs : gmap string Z) : gmap string Z :=
  match cs !! name with
  | Some _ => cs
  | None => <[name := n]> cs
  end.

(** [d'] has the rows of [d] in every table but [counters]. *)
Definition same_rows (d d' : db) : Prop :=
  shipments d' = shipments d
  ∧ shipment_elements d' = shipment_elements d
  ∧ delivery_notes d' = delivery_notes d
  ∧ delivery_note_items d' = delivery_note_items d
  ∧ sqlite_sequence d' = sqlite_sequence d.

(** Where [initializeDatabase] stands after some of its statements: outside
    any transaction, on tables with the rows and the counter rows of [d0]
    and possibly more counter rows. *)
Definition initializing (d0 : db) (c : conn) : Prop :=
  ∃ d, idle d c ∧ same_rows d0 d
    ∧ (∀ name v, counters d0 !! name = Some v → counters d !! name = Some v).

(** What [initializeDatabase] guarantees when run outside a transaction on
    [d0]: a counter row is never changed, and once it has resolved both
    counter rows are there. *)
Definition initializeDatabase_post (d0 : db) (o : outcome ()) (c' : conn) : Prop :=
  ∃ d', idle d' c' ∧ same_rows d0 d'
    ∧ (∀ name v, counters d0 !! name = Some v → counters d' !! name = Some v)
    ∧ match o with
      | Ok _ =>
        counters d'
        = ensure_counter "deliveryNoteCounter" 1000
            (ensure_counter "shipmentCounter" 1000 (counters d0))
      | Throw _ => True
      end.

(** What a REAL cell holds for a number the handler computed: NULL when it
    is NaN and the number otherwise, the negative zero as zero. *)
Definition real_cell (f : float) : jsval :=
  if PrimFloat.is_nan f then JNull
  else JNum (if PrimFloat.is_zero f then 0%float else f).



(** The handler's sum, taken over the rows of [delivery_note_items]. *)
Definition sum_of_rows `{rt : Runtime} (rows : list delivery_note_item_row) : float :=
  foldl (λ acc r, (acc + parseFloat (i_quantity r) * parseFloat (i_price r))%float)
        0%float rows.

(** [shipment] with another job number and CE number. *)
Definition with_job_and_ce (job ce : jsval) (shipment : shipment_row) : shipment_row :=
  {| s_id := s_id shipment; s_trackingNumber := s_trackingNumber shipment;
     s_senderName := s_senderName shipment;
     s_senderContact := s_senderContact shipment;
     s_senderAddress := s_senderAddress shipment;
     s_recipientName := s_recipientName shipment;
     s_recipientContact := s_recipientContact shipment;
     s_recipientAddress := s_recipientAddress shipment;
     s_associatedJobNo := job; s_ceNumber := ce;
     s_status := s_status shipment; s_createdAt := s_createdAt shipment;
     s_courier_charge := s_courier_charge shipment |}.

(** The header box height read as a base height plus one fixed increment
    per present field among job number, CE number and courier charge. *)
Definition height_is_base_plus_increment_per_field : Prop :=
  ∃ base increment : float, ∀ shipment,
    headerBoxHeight shipment
    = (base + increment * float_of_nat (optional_fields_present shipment))%float.

(** No carriage return and no line feed in [s]. *)
Fixpoint no_line_break (s : string) : bool :=
  match s with
  | EmptyString => true
  | String c r =>
    negb (Ascii.eqb c "013"%char) && negb (Ascii.eqb c "010"%char) && no_line_break r
  end.

(** What follows a carriage return once the regular expression has matched
    it, with the line feed right after it when there is one. *)
Definition after_carriage_return (r : string) : string :=
  match r with
  | String c' r' => if Ascii.eqb c' "010"%char then r' else r
  | EmptyString => EmptyString
  end.

(** A text drawn on the footer line, at height [padding]: the disclaimer,
    the date and the page number are, and no part of the signature block
    is. *)
Definition on_footer_line (op : draw_op) : Prop :=
  ∃ text x f size color, op = DrawText text x 40 f size color.

(** ** Vocabulary for the text wrapper, the elements section and the
    requests in flight *)

(** No space in [s]. *)
Fixpoint no_space (s : string) : bool :=
  match s with
  | EmptyString => true
  | String c r => negb (Ascii.eqb c " "%char) && no_space r
  end.

(** The words of some lines, in order, empty ones dropped. *)
Definition words_of (lines : list string) : list string :=
  filter (λ w, w ≠ "") (lines ≫= split_space).

(** [line] is not wider than [maxWidth]: the test of [wrapText] fails on it. *)
Definition fits `{rt : Runtime} (f : font) (fontSize maxWidth : float) (line : string)
    : Prop :=
  (maxWidth <? widthOfTextAtSize f line fontSize)%float = false.

(** Every drawing call of a document, page after page. *)
Definition drawn (pages : list page) : list draw_op := pages ≫= content.

(** The calls [ops] are on one page of the document, next to each other. *)
Definition on_one_page (pages : list page) (ops : list draw_op) : Prop :=
  ∃ p before after, p ∈ pages ∧ content p = before ++ ops ++ after.

(** A row of [descriptionLines] drawn from [y] starts a fresh page or stays
    above the bottom margin. *)
Definition placed (blank : page) (y : float) (descriptionLines : list string) : Prop :=
  y = (page_height blank - padding)%float
  ∨ (y - itemHeight descriptionLines <? padding + 150)%float = false.

(** [ops] are the drawing calls of the row of [item], so placed. *)
Definition row_of `{rt : Runtime} `{fm : Formatting} (blank : page) (width : float)
    (item : shipment_element_row) (ops : list draw_op) : Prop :=
  ∃ y, placed blank y (item_lines width item)
       ∧ ops = row_ops width y (item_lines width item) item.

(** The heading of the section, drawn with the cursor at [y]. *)
Definition heading (y : float) : draw_op :=
  DrawText "ELEMENTS / ITEMS:" 50 (y - 20) HelveticaBold 12 None.

(** The settled handler of an outcome. *)
Definition settled {A} (o : outcome A) : task A :=
  match o with Ok a => Resolve a | Throw e => Reject e end.

(** The validation of [POST /shipments] and of [POST /delivery-notes]
    fails. *)
Definition lacks_required_field (body : shipment_body) : bool :=
  negb (truthy (senderName body)) || negb (truthy (senderAddress body))
  || negb (truthy (recipientName body)) || negb (truthy (recipientAddress body)).

Definition lacks_note_field (body : delivery_note_body) : bool :=
  match items body with
  | None => true
  | Some _ =>
    negb (truthy (clientName body)) || negb (truthy (date body))
    || negb (truthy (address body))
  end.

(** Served on its own, [t] never resolves to [a]. *)
Definition never_resolves_to {A} (a : A) (t : task A) : Prop :=
  ∀ c, (run t c).1 ≠ Ok a.

(** Shipment creations served one after the other on the connection. *)
Fixpoint post_all `{rt : Runtime} `{st : Storage}
    (requests : list (shipment_body * string)) (c : conn)
    : list (outcome response) * conn :=
  match requests with
  | [] => ([], c)
  | (body, now) :: rest =>
    let (o, c1) := run (post_shipments body now) c in
    let (os, c2) := post_all rest c1 in
    (o :: os, c2)
  end.

(** The tracking numbers answered with 201, in order. *)
Definition created (os : list (outcome response)) : list string :=
  omap (λ o, match o with
             | Ok (Created trackingNumber) => Some trackingNumber
             | _ => None
             end) os.

(** The handler answered: its promise did not reject. *)
Definition answered {A} (o : outcome A) : Prop :=
  match o with Ok _ => True | Throw _ => False end.


(** ** Closed inputs *)

(** A runtime to run the code on closed inputs: no string is a number, the
    font is fixed-pitch (half the size per character), dates print as
    stored. *)
Fixpoint string_width (s : string) : float :=
  match s with
  | EmptyString => 0%float
  | String _ r => (string_width r + 1)%float
  end.

Definition plain_runtime : Runtime :=
  {| parseFloat_string := λ _, PrimFloat.nan;
     widthOfTextAtSize := λ _ s size, (string_width s * size / 2)%float;
     toLocaleString := λ s, s |}.

(** A storage for closed inputs: the numeric literals are the unsigned
    decimal integers below 2^31 (the closed inputs hold no other numeric
    text), and no closed input binds a number that is not such an integer
    to a TEXT column. *)
Definition plain_storage : Storage :=
  {| numeric_literal := λ s,
       match NilEmpty.uint_of_string s with
       | Some u =>
         if Z.of_uint u <? 2 ^ 31
         then Some (PrimFloat.of_uint63 (Uint63.of_Z (Z.of_uint u)))
         else None
       | None => None
       end;
     real_to_text := λ _, "" |}.

Definition tables (cs : gmap string Z) : db :=
  {| counters := cs; shipments := []; shipment_elements := [];
     delivery_notes := []; delivery_note_items := []; sqlite_sequence := ∅ |}.

(** The tables as [initializeDatabase] leaves them on an empty file. *)
Definition initial_db : db :=
  tables {[ "shipmentCounter" := 1000; "deliveryNoteCounter" := 1000 ]}.

(** The tables with no counter row, and with a shipment counter at 2^53. *)
Definition no_counter_db : db := tables ∅.

Definition saturated_db : db :=
  tables {[ "shipmentCounter" := 2 ^ 53; "deliveryNoteCounter" := 1000 ]}.

Definition connect (d : db) (fs : list bool) : conn :=
  {| durable := d; txn := None; faults := fs |}.

Definition parcel (els : option (list (option element_body))) : shipment_body :=
  {| senderName := JStr "Acme"; senderContact := JUndefined;
     senderAddress := JStr "1 Main Rd";
     recipientName := JStr "Bolt"; recipientContact := JNull;
     recipientAddress := JStr "2 Side St";
     associatedJobNo := JUndefined; ceNumber := JUndefined;
     elements := els; courier_charge := JNum 12.5 |}.

Definition note (its : list (option item_body)) : delivery_note_body :=
  {| clientName := JStr "Acme"; date := JStr "2025-01-31";
     address := JStr "1 Main Rd"; contactPerson := JUndefined;
     contactNumber := JUndefined; jobNo := JUndefined;
     dn_ceNumber := JUndefined; items := Some its |}.

Definition first_parcel : outcome response * conn :=
  run (post_shipments (rt := plain_runtime) (st := plain_storage) (parcel None)
         "2025-01-31T08:00:00.000Z")
    (connect initial_db []).

(** A request whose second element is [null]: the shipment row and the
    first element row are inserted, then the loop throws. *)
Definition one_box_then_null : list (option element_body) :=
  [Some {| el_description := JStr "Box"; el_quantity := JNum 2 |}; None].

Definition broken_parcel : outcome response * conn :=
  run (post_shipments (rt := plain_runtime) (st := plain_storage)
         (parcel (Some one_box_then_null)) "2025-01-31T08:00:00.000Z")
    (connect initial_db []).

(** A request whose UPDATE of the counter the storage layer rejects, and
    then the ROLLBACK of its [catch] block too. *)
Definition unrolled_parcel : outcome response * conn :=
  run (post_shipments (rt := plain_runtime) (st := plain_storage) (parcel None)
         "2025-01-31T08:00:00.000Z")
    (connect initial_db [false; false; false; true; true]).

(** Two requests in a row on tables that lack the [shipmentCounter] row. *)
Definition orphan_first : outcome response * conn :=
  run (post_shipments (rt := plain_runtime) (st := plain_storage) (parcel None)
         "2025-01-31T08:00:00.000Z")
    (connect no_counter_db []).

Definition orphan_second : outcome response * conn :=
  run (post_shipments (rt := plain_runtime) (st := plain_storage) (parcel None)
         "2025-01-31T08:05:00.000Z")
    orphan_first.2.

(** Start-up on those tables, then two requests in a row. *)
Definition started : outcome () * conn :=
  run initializeDatabase (connect no_counter_db []).

Definition first_after_start : outcome response * conn :=
  run (post_shipments (rt := plain_runtime) (st := plain_storage) (parcel None)
         "2025-01-31T08:00:00.000Z")
    started.2.

Definition second_after_start : outcome response * conn :=
  run (post_shipments (rt := plain_runtime) (st := plain_storage) (parcel None)
         "2025-01-31T08:05:00.000Z")
    first_after_start.2.

(** A request on tables whose shipment counter holds 2^53. *)
Definition saturated_parcel : outcome response * conn :=
  run (post_shipments (rt := plain_runtime) (st := plain_storage) (parcel None)
         "2025-01-31T08:00:00.000Z")
    (connect saturated_db []).

(** Two shipment creations in flight on the initial tables, the first with
    or without the [null] element. *)
Definition two_in_flight (els : option (list (option element_body)))
    : list (task response) :=
  [ post_shipments (rt := plain_runtime) (st := plain_storage) (parcel els)
      "2025-01-31T08:00:00.000Z";
    post_shipments (rt := plain_runtime) (st := plain_storage) (parcel None)
      "2025-01-31T08:00:00.010Z" ].

(** Four shipment creations in flight on the initial tables.  The first
    has sent all its statements but COMMIT when the second one's BEGIN and
    ROLLBACK are carried out; the third one's BEGIN comes next, then the
    COMMIT of the first; the third sends its SELECT, INSERT and UPDATE, the
    fourth its BEGIN, the third its COMMIT; the statements of the fourth
    follow. *)
Definition four_in_flight : list (task response) :=
  [ post_shipments (rt := plain_runtime) (st := plain_storage) (parcel None)
      "2025-01-31T08:00:00.000Z";
    post_shipments (rt := plain_runtime) (st := plain_storage) (parcel None)
      "2025-01-31T08:00:00.010Z";
    post_shipments (rt := plain_runtime) (st := plain_storage) (parcel None)
      "2025-01-31T08:00:00.020Z";
    post_shipments (rt := plain_runtime) (st := plain_storage) (parcel None)
      "2025-01-31T08:00:00.030Z" ].

Definition shared_number : list (task response) * conn :=
  serve [0; 0; 0; 0; 1; 1; 2; 0; 2; 2; 2; 3; 2; 3; 3; 3; 3; 3]%nat four_in_flight
    (connect initial_db []).

(** The first request has begun its transaction, read the counter and
    inserted its shipment when the second one's BEGIN and then ROLLBACK
    are carried out; the first one's UPDATE, COMMIT and ROLLBACK follow. *)
Definition torn_allocation : list (task response) * conn :=
  serve [0; 0; 0; 1; 1; 0; 0; 0]%nat (two_in_flight None) (connect initial_db []).

(** The second request's BEGIN and ROLLBACK are carried out right after
    the first one has read the counter; the first one's INSERTs, UPDATE,
    COMMIT and ROLLBACK follow. *)
Definition stranded_allocation : list (task response) * conn :=
  serve [0; 0; 1; 1; 0; 0; 0; 0]%nat (two_in_flight None) (connect initial_db []).

(** The same with the [null] element in the first request, which throws
    after its two INSERTs; its ROLLBACK follows. *)
Definition stranded_failure : list (task response) * conn :=
  serve [0; 0; 1; 1; 0; 0; 0]%nat (two_in_flight (Some one_box_then_null))
    (connect initial_db []).

(** [[{quantity: 2, price: 100}, {quantity: 1, price: 50}]], described. *)
Definition two_items : list item_body :=
  [ {| it_quantity := JNum 2; it_description := JStr "Banner"; it_price := JNum 100 |};
    {| it_quantity := JNum 1; it_description := JStr "Stand"; it_price := JNum 50 |} ].


(** An item the INSERT loop skips (its description is empty), and one
    whose quantity is not a number. *)
Definition undescribed_item : list item_body :=
  [ {| it_quantity := JNum 2; it_description := JStr ""; it_price := JNum 100 |} ].

Definition unparsable_item : list item_body :=
  [ {| it_quantity := JStr "two"; it_description := JStr "Banner";
       it_price := JNum 100 |} ].

Definition unparsable_note : outcome response * conn :=
  run (post_delivery_notes (rt := plain_runtime) (st := plain_storage)
         (note (Some <$> unparsable_item)) "2025-01-31T08:00:00.000Z")
    (connect initial_db []).

(** An item whose quantity is the text ["2"] and whose description is the
    number 7. *)
Definition retyped_item : list item_body :=
  [ {| it_quantity := JStr "2"; it_description := JNum 7; it_price := JNum 100 |} ].

Definition retyped_note : outcome response * conn :=
  run (post_delivery_notes (rt := plain_runtime) (st := plain_storage)
         (note (Some <$> retyped_item)) "2025-01-31T08:00:00.000Z")
    (connect initial_db []).

(** Integers around the powers of two where binary64 starts to round. *)
Definition sample_integers : list Z :=
  [ 0; 1; 999; 1000; 2 ^ 31 - 1; 2 ^ 31; 2 ^ 52; 2 ^ 53 - 2; 2 ^ 53 - 1; 2 ^ 53;
    2 ^ 53 + 1; 2 ^ 53 + 2; 2 ^ 53 + 3; 2 ^ 54 - 1; 2 ^ 54 + 2; 2 ^ 54 + 6;
    2 ^ 60 + 12345; 2 ^ 62 + 2 ^ 9 + 2 ^ 8; 2 ^ 63 - 1024 ].

(** A stored shipment with the given job number, CE number and courier
    charge. *)
Definition stored (job ce charge : jsval) : shipment_row :=
  {| s_id := 1; s_trackingNumber := "T1001";
     s_senderName := JStr "Acme"; s_senderContact := JNull;
     s_senderAddress := JStr "1 Main Rd";
     s_recipientName := JStr "Bolt"; s_recipientContact := JNull;
     s_recipientAddress := JStr "2 Side St";
     s_associatedJobNo := job; s_ceNumber := ce;
     s_status := "Pending"; s_createdAt := "2025-01-31T08:00:00.000Z";
     s_courier_charge := charge |}.

(** The text ["a\nb"]. *)
Definition two_lines : string := String "a" (String "010" (String "b" "")).

(** Two pages as [pdfDoc.addPage()] makes them (A4: 595.28 by 841.89
    points, written as the binary64 nearest to each), and a disclaimer
    setting. *)
Definition blank_page : page :=
  {| page_width := 0x1.29a3d70a3d70ap+9; page_height := 0x1.a4f1eb851eb85p+9;
     content := [] |}.

Definition two_pages : list page := [blank_page; blank_page].

Definition with_disclaimer : gmap string (option string) :=
  settings_of_rows [("disclaimer", Some "E&OE")].

(** ** More closed inputs *)

(** A formatting for closed inputs, whose printed cells are all text. *)
Definition plain_formatting : Formatting := {| number_to_string := λ _, "0" |}.

(** A page whose cursor has come down to 200, and two stored elements, the
    second with no description and no quantity. *)
Definition low_layout : layout :=
  {| lay_finished := []; lay_page := blank_page; lay_y := 200 |}.

Definition two_rows : list shipment_element_row :=
  [ {| e_id := 1; e_shipment_id := 1; e_description := JStr "Box of brochures";
       e_quantity := JStr "2" |};
    {| e_id := 2; e_shipment_id := 1; e_description := JNull; e_quantity := JNull |} ].

(** Two shipment creations served one after the other. *)
Definition two_parcels : list (outcome response) * conn :=
  post_all (rt := plain_runtime) (st := plain_storage)
    [ (parcel None, "2025-01-31T08:00:00.000Z");
      (parcel None, "2025-01-31T08:05:00.000Z") ]
    (connect initial_db []).


(** Start-up when a shipment has been created, and a delivery note whose
    UPDATE of the counter the storage layer rejects. *)
Definition restarted : outcome () * conn := run initializeDatabase first_parcel.2.

Definition rejected_note : outcome response * conn :=
  run (post_delivery_notes (rt := plain_runtime) (st := plain_storage)
         (note (Some <$> two_items)) "2025-01-31T08:00:00.000Z")
    (connect initial_db [false; false; false; false; true]).

(** * Binary64 facts *)

Lemma Prim2SF_nan : Prim2SF PrimFloat.nan = S754_nan.
Proof. reflexivity. Qed.

Lemma nan_add_l x : (PrimFloat.nan + x)%float = PrimFloat.nan.
Proof. apply Prim2SF_inj. rewrite add_spec, Prim2SF_nan. reflexivity. Qed.

Lemma nan_add_r x : (x + PrimFloat.nan)%float = PrimFloat.nan.
Proof.
  apply Prim2SF_inj. rewrite add_spec, Prim2SF_nan.
  by destruct (Prim2SF x).
Qed.

Lemma nan_mul_l x : (PrimFloat.nan * x)%float = PrimFloat.nan.
Proof. apply Prim2SF_inj. rewrite mul_spec, Prim2SF_nan. reflexivity. Qed.

Lemma nan_mul_r x : (x * PrimFloat.nan)%float = PrimFloat.nan.
Proof.
  apply Prim2SF_inj. rewrite mul_spec, Prim2SF_nan.
  by destruct (Prim2SF x).
Qed.

Lemma float_neq (x y : float) : PrimFloat.Leibniz.eqb x y = false → x ≠ y.
Proof.
  intros Hb Heq. apply FloatAxioms.Leibniz.eqb_spec in Heq. congruence.
Qed.


(** An integer of at most 53 bits is a binary64, and so is its successor. *)
Lemma binary64_exact z : Z.abs z < 2 ^ 53 → binary64 z = z.
Proof.
  intros Hz. unfold binary64.
  destruct (Z.leb_spec (Z.log2 (Z.abs z) - 52) 0) as [|Hbig]; [done|].
  destruct (decide (Z.abs z = 0)) as [H0|H0].
  - rewrite H0 in Hbig. simpl in Hbig. lia.
  - assert (Z.log2 (Z.abs z) < 53); [|lia].
    apply Z.log2_lt_pow2; lia.
Qed.

Lemma plus_one_exact z : Z.abs z < 2 ^ 53 → plus (binary64 z) 1 = z + 1.
Proof.
  intros Hz. unfold plus. rewrite (binary64_exact z Hz).
  destruct (decide (z + 1 = 2 ^ 53)) as [->|]; [done|].
  apply binary64_exact. lia.
Qed.

(** Where the rounding written out in [binary64] and the primitive floats
    meet: on integers on either side of 2^53, 2^54 and beyond, reading the
    cell and adding one on the floats gives the integer that [binary64] and
    [plus] give; at 2^53 adding one changes nothing. *)
Lemma binary64_meets_float :
  Forall (λ z, integer_of (float_of_cell z) = Some (binary64 z)
               ∧ integer_of (float_of_cell z + 1) = Some (plus (binary64 z) 1))
    sample_integers
  ∧ (9007199254740992 + 1)%float = 9007199254740992%float
  ∧ plus 9007199254740992 1 = 9007199254740992.
Proof.
  split; [|by vm_compute].
  unfold sample_integers. repeat constructor; by vm_compute.
Qed.

(** A number in a REAL or INTEGER column: NULL for NaN, the number
    otherwise, the negative zero as zero. *)
Lemma column_number `{st : Storage} a f :
  a ≠ TEXT →
  column a (JNum f)
  = if PrimFloat.is_nan f then JNull
    else JNum (if PrimFloat.is_zero f then 0%float else f).
Proof. intros Ha. unfold column. by destruct (PrimFloat.is_nan f), a. Qed.

(** * Reasoning about handlers *)

Lemma run_bind {A B} (t : task A) (k : A → task B) c :
  run (t ≫= k) c
  = match run t c with
    | (Ok a, c') => run (k a) c'
    | (Throw e, c') => (Throw e, c')
    end.
Proof.
  revert c. induction t as [a|e|X call h IH]; intros c; simpl; try done.
  destruct (call c) as [r c']. apply IH.
Qed.

Lemma run_try_catch {A} (t : task A) (h : error → task A) c :
  run (try_catch t h) c
  = match run t c with
    | (Ok a, c') => (Ok a, c')
    | (Throw e, c') => run (h e) c'
    end.
Proof.
  revert c. induction t as [a|e|X call k IH]; intros c; simpl; try done.
  destruct (call c) as [r c']. apply IH.
Qed.

Lemma run_await {A} (call : M A) c : run (await call) c = call c.
Proof. simpl. by destruct (call c) as [[a|e] c']. Qed.

Lemma wp_ret {A} (a : A) c (Q : outcome A → conn → Prop) :
  Q (Ok a) c → wp (mret a) c Q.
Proof. done. Qed.

Lemma wp_throw {A} e c (Q : outcome A → conn → Prop) :
  Q (Throw e) c → wp (throw e) c Q.
Proof. done. Qed.

Lemma wp_bind {A B} (t : task A) (k : A → task B) c (Q : outcome B → conn → Prop) :
  wp t c (λ o c', match o with
                  | Ok a => wp (k a) c' Q
                  | Throw e => Q (Throw e) c'
                  end) →
  wp (t ≫= k) c Q.
Proof.
  unfold wp. rewrite run_bind. destruct (run t c) as [[a|e] c']; simpl; auto.
Qed.

Lemma wp_try_catch {A} (t : task A) (h : error → task A) c
    (Q : outcome A → conn → Prop) :
  wp t c (λ o c', match o with
                  | Ok a => Q (Ok a) c'
                  | Throw e => wp (h e) c' Q
                  end) →
  wp (try_catch t h) c Q.
Proof.
  unfold wp. rewrite run_try_catch. destruct (run t c) as [[a|e] c']; simpl; auto.
Qed.

Lemma statement_in_txn {A} (query : db → outcome (A * db)) d0 d c :
  in_txn d0 d c →
  ∃ fs,
    statement query c
    = (Throw SqliteFailure, {| durable := d0; txn := Some d; faults := fs |})
    ∨ statement query c =
      match query d with
      | Ok (a, d') => (Ok a, {| durable := d0; txn := Some d'; faults := fs |})
      | Throw e => (Throw e, {| durable := d0; txn := Some d; faults := fs |})
      end.
Proof.
  destruct c as [du tx fs]. intros [Hd Ht]; simpl in *; subst du tx.
  unfold statement, view, write, set_faults; simpl.
  destruct fs as [|[] fs]; simpl.
  - exists []. right. by destruct (query d) as [[a d']|e].
  - exists fs. by left.
  - exists fs. right. by destruct (query d) as [[a d']|e].
Qed.

Lemma statement_idle {A} (query : db → outcome (A * db)) d c :
  idle d c →
  ∃ fs,
    statement query c
    = (Throw SqliteFailure, {| durable := d; txn := None; faults := fs |})
    ∨ statement query c =
      match query d with
      | Ok (a, d') => (Ok a, {| durable := d'; txn := None; faults := fs |})
      | Throw e => (Throw e, {| durable := d; txn := None; faults := fs |})
      end.
Proof.
  destruct c as [du tx fs]. intros [Hd Ht]; simpl in *; subst du tx.
  unfold statement, view, write, set_faults; simpl.
  destruct fs as [|[] fs]; simpl.
  - exists []. right. by destruct (query d) as [[a d']|e].
  - exists fs. by left.
  - exists fs. right. by destruct (query d) as [[a d']|e].
Qed.

Lemma wp_statement {A} (query : db → outcome (A * db)) d0 d c
    (Q : outcome A → conn → Prop) :
  in_txn d0 d c →
  (∀ c', in_txn d0 d c' → Q (Throw SqliteFailure) c') →
  (∀ c' e, query d = Throw e → in_txn d0 d c' → Q (Throw e) c') →
  (∀ c' a d', query d = Ok (a, d') → in_txn d0 d' c' → Q (Ok a) c') →
  wp (await (statement query)) c Q.
Proof.
  intros Hc Hfault Hthrow Hok. unfold wp. rewrite run_await.
  destruct (statement_in_txn query d0 d c Hc) as [fs [-> | ->]]; simpl.
  - by apply Hfault.
  - destruct (query d) as [[a d']|e] eqn:Hr; simpl.
    + by apply (Hok _ a d').
    + by apply Hthrow.
Qed.

Lemma wp_statement_idle {A} (query : db → outcome (A * db)) d c
    (Q : outcome A → conn → Prop) :
  idle d c →
  (∀ c', idle d c' → Q (Throw SqliteFailure) c') →
  (∀ c' e, query d = Throw e → idle d c' → Q (Throw e) c') →
  (∀ c' a d', query d = Ok (a, d') → idle d' c' → Q (Ok a) c') →
  wp (await (statement query)) c Q.
Proof.
  intros Hc Hfault Hthrow Hok. unfold wp. rewrite run_await.
  destruct (statement_idle query d c Hc) as [fs [-> | ->]]; simpl.
  - by apply Hfault.
  - destruct (query d) as [[a d']|e] eqn:Hr; simpl.
    + by apply (Hok _ a d').
    + by apply Hthrow.
Qed.

Lemma wp_BEGIN d0 c (Q : outcome () → conn → Prop) :
  idle d0 c →
  (∀ c' e, idle d0 c' → Q (Throw e) c') →
  (∀ c', in_txn d0 d0 c' → Q (Ok ()) c') →
  wp BEGIN c Q.
Proof.
  destruct c as [du tx fs]. intros [Hd Ht] Hthrow Hok; simpl in *; subst du tx.
  unfold wp, BEGIN. rewrite run_await. unfold control, set_faults.
  destruct fs as [|[] fs]; simpl; first [ by apply Hok | by apply Hthrow ].
Qed.

Lemma wp_COMMIT d0 d c (Q : outcome () → conn → Prop) :
  in_txn d0 d c →
  (∀ c' e, in_txn d0 d c' → Q (Throw e) c') →
  (∀ c', idle d c' → Q (Ok ()) c') →
  wp COMMIT c Q.
Proof.
  destruct c as [du tx fs]. intros [Hd Ht] Hthrow Hok; simpl in *; subst du tx.
  unfold wp, COMMIT. rewrite run_await. unfold control, set_faults.
  destruct fs as [|[] fs]; simpl; first [ by apply Hok | by apply Hthrow ].
Qed.

Lemma wp_ROLLBACK d0 d c (Q : outcome () → conn → Prop) :
  in_txn d0 d c →
  (∀ c' e, in_txn d0 d c' → Q (Throw e) c') →
  (∀ c', idle d0 c' → Q (Ok ()) c') →
  wp ROLLBACK c Q.
Proof.
  destruct c as [du tx fs]. intros [Hd Ht] Hthrow Hok; simpl in *; subst du tx.
  unfold wp, ROLLBACK. rewrite run_await. unfold control, set_faults.
  destruct fs as [|[] fs]; simpl; first [ by apply Hok | by apply Hthrow ].
Qed.

Lemma wp_ROLLBACK_idle d0 c (Q : outcome () → conn → Prop) :
  idle d0 c →
  (∀ c' e, idle d0 c' → Q (Throw e) c') →
  wp ROLLBACK c Q.
Proof.
  destruct c as [du tx fs]. intros [Hd Ht] Hthrow; simpl in *; subst du tx.
  unfold wp, ROLLBACK. rewrite run_await. unfold control, set_faults.
  destruct fs as [|[] fs]; simpl; by apply Hthrow.
Qed.

(** ** What the loops and the handlers do to the tables *)

Lemma wp_insert_elements `{st : Storage} id els d0 d c (Q : outcome () → conn → Prop) :
  in_txn d0 d c →
  (∀ o c' d', in_txn d0 d' c' → elements_only d d' → Q o c') →
  wp (insert_elements id els) c Q.
Proof.
  revert d c Q. induction els as [|[element|] rest IH]; intros d c Q Hc HQ; simpl.
  - apply wp_ret. by apply (HQ _ _ d).
  - apply wp_bind.
    destruct (truthy (el_description element) && truthy (el_quantity element)).
    + unfold insert_shipment_element.
      eapply wp_statement; [done|..].
      * intros c' Hc'. by apply (HQ _ _ d).
      * intros c' e _ Hc'. by apply (HQ _ _ d).
      * intros c' a d' Hins Hc'. case_bool_decide; [|done].
        injection Hins as <- <-. eapply IH; [done|].
        intros o c'' d'' Hc'' (?&?&?&?). apply (HQ _ _ d''); [done|].
        by repeat split; simpl in *; congruence.
    + apply wp_ret. by eapply IH.
  - apply wp_throw. by apply (HQ _ _ d).
Qed.

Lemma wp_catch_shipments d0 d e c :
  in_txn d0 d c → wp (ROLLBACK;; mret (ServerError e)) c (shipments_post d0).
Proof.
  intros Hc. apply wp_bind. eapply wp_ROLLBACK; [done|..].
  - by intros c' e' [??].
  - intros c' Hc'. by apply wp_ret.
Qed.

Lemma wp_catch_notes `{rt : Runtime} `{st : Storage} body d0 d e c :
  in_txn d0 d c → wp (ROLLBACK;; mret (ServerError e)) c (notes_post body d0).
Proof.
  intros Hc. apply wp_bind. eapply wp_ROLLBACK; [done|..].
  - by intros c' e' [??].
  - intros c' Hc'. by apply wp_ret.
Qed.

(** A failure inside the [try] block of either handler. *)
Ltac rolls_back :=
  intros; first [ by eapply wp_catch_shipments | by eapply wp_catch_notes ].

Lemma wp_shipment_tail d0 d c :
  in_txn d0 d c →
  counters d = counters d0 →
  "T" +:+ pretty (newCount_of "shipmentCounter" d0) ∉ (s_trackingNumber <$> shipments d0) →
  (∃ row, shipments d = shipments d0 ++ [row]
          ∧ s_trackingNumber row = "T" +:+ pretty (newCount_of "shipmentCounter" d0)) →
  delivery_notes d = delivery_notes d0 →
  delivery_note_items d = delivery_note_items d0 →
  wp (update_counter "shipmentCounter" (newCount_of "shipmentCounter" d0);;
      COMMIT;;
      mret (Created ("T" +:+ pretty (newCount_of "shipmentCounter" d0))))
     c (caught (shipments_post d0)).
Proof.
  intros Hc Hcnt Hfresh Hrow Hdn Hdi.
  apply wp_bind. unfold update_counter.
  eapply wp_statement; [done| |by intros ? ? [=]|].
  { rolls_back. }
  intros c1 [] d1 [= <-] Hc1.
  apply wp_bind. eapply wp_COMMIT; [done| |].
  { rolls_back. }
  intros c2 Hc2. apply wp_ret. simpl.
  eexists; split; [done|]. unfold shipment_created; simpl.
  by rewrite Hcnt, Hdn, Hdi.
Qed.

Lemma post_shipments_spec `{rt : Runtime} `{st : Storage} body now d0 c :
  idle d0 c → wp (post_shipments body now) c (shipments_post d0).
Proof.
  intros Hc. unfold post_shipments.
  destruct (_ || _); [by apply wp_ret|].
  apply wp_try_catch. fold (caught (shipments_post d0)).
  apply wp_bind. eapply wp_BEGIN; [done|..].
  { intros c' e Hc'. apply wp_bind. eapply wp_ROLLBACK_idle; [done|].
    by intros c'' e' [??]. }
  intros c1 Hc1. apply wp_bind. unfold select_counter.
  eapply wp_statement; [done| |by intros c' e [=]|].
  { rolls_back. }
  intros c2 counter d [= <- <-] Hc2.
  fold (newCount_of "shipmentCounter" d0).
  apply wp_bind. unfold insert_shipment.
  eapply wp_statement; [done|..].
  { rolls_back. }
  { rolls_back. }
  intros c3 shipmentId d3 Hins Hc3.
  case_bool_decide as Hfresh; [done|]. injection Hins as <- <-.
  simpl in Hfresh. apply wp_bind.
  destruct (elements body) as [els|].
  - eapply wp_insert_elements; [done|].
    intros [[]|e] c' d' Hc' (Hcnt & Hsh & Hdn & Hdi); simpl in *.
    + eapply wp_shipment_tail; eauto.
    + rolls_back.
  - apply wp_ret. eapply wp_shipment_tail; eauto.
Qed.

(** *** Delivery notes *)

Lemma reduce_subtotal_Ok `{rt : Runtime} its acc s :
  reduce_subtotal its acc = Ok s →
  ∃ objs, its = Some <$> objs ∧ s = subtotal_of objs acc.
Proof.
  revert acc. induction its as [|[item|] rest IH]; intros acc Hs; simpl in *.
  - exists []. by injection Hs as <-.
  - destruct (IH _ Hs) as (objs & -> & ->). by exists (item :: objs).
  - discriminate.
Qed.

Lemma reduce_subtotal_objects `{rt : Runtime} objs acc :
  reduce_subtotal (Some <$> objs) acc = Ok (subtotal_of objs acc).
Proof. revert acc. induction objs as [|item rest IH]; intros acc; simpl; auto. Qed.

Lemma wp_insert_items `{st : Storage} noteId objs d0 d c (Q : outcome () → conn → Prop) :
  in_txn d0 d c →
  noteId ∈ n_id <$> delivery_notes d →
  (∀ e c' d', in_txn d0 d' c' → Q (Throw e) c') →
  (∀ c' d' rows,
     in_txn d0 d' c' → items_only d d' →
     delivery_note_items d' = delivery_note_items d ++ rows →
     row_cells <$> rows = stored_cells <$> filter (λ item, kept item = true) objs →
     Forall (λ r, i_delivery_note_id r = noteId) rows →
     Q (Ok ()) c') →
  wp (insert_items noteId (Some <$> objs)) c Q.
Proof.
  revert d c Q. induction objs as [|item rest IH]; intros d c Q Hc Hnote Hthrow Hok; simpl.
  - apply wp_ret. apply (Hok c d []); rewrite ?app_nil_r; try done.
  - apply wp_bind. fold (kept item).
    destruct (kept item) eqn:Hk.
    + unfold insert_delivery_note_item.
      eapply wp_statement; [done|by eauto|by eauto|].
      intros c1 [] d1 Hins Hc1. case_bool_decide; [|done]. injection Hins as <-.
      eapply IH; [done|done|by eauto|].
      intros c2 d2 rows Hc2 (?&?&?&?) Hrows Hcells Hid; simpl in *.
      eapply (Hok c2 d2 (_ :: rows)); [done| |by rewrite Hrows, <-app_assoc| |].
      * by repeat split.
      * rewrite filter_cons_True by done. by rewrite !fmap_cons, Hcells.
      * by constructor.
    + apply wp_ret. eapply IH; [done|done|by eauto|].
      intros c2 d2 rows Hc2 Hd2 Hrows Hcells Hid.
      eapply (Hok c2 d2 rows); try done.
      rewrite filter_cons_False; [done|]. by rewrite Hk.
Qed.

Lemma post_delivery_notes_spec `{rt : Runtime} `{st : Storage} body now d0 c :
  idle d0 c → wp (post_delivery_notes body now) c (notes_post body d0).
Proof.
  intros Hc. unfold post_delivery_notes.
  destruct (items body) as [its|] eqn:Hits; [|by apply wp_ret].
  destruct (_ || _); [by apply wp_ret|].
  apply wp_try_catch. fold (caught (notes_post body d0)).
  apply wp_bind. eapply wp_BEGIN; [done|..].
  { intros c' e Hc'. apply wp_bind. eapply wp_ROLLBACK_idle; [done|].
    by intros c'' e' [??]. }
  intros c1 Hc1. apply wp_bind.
  destruct (reduce_subtotal its 0%float) as [subtotal|e] eqn:Hsub.
  2:{ apply wp_throw. rolls_back. }
  apply reduce_subtotal_Ok in Hsub as (objs & -> & ->).
  apply wp_ret, wp_bind. unfold select_counter.
  eapply wp_statement; [done| |by intros c' e [=]|].
  { rolls_back. }
  intros c2 counter d [= <- <-] Hc2.
  fold (newCount_of "deliveryNoteCounter" d0).
  apply wp_bind. unfold insert_delivery_note.
  eapply wp_statement; [done|..].
  { rolls_back. }
  { rolls_back. }
  intros c3 noteId d3 Hins Hc3.
  case_bool_decide as Hfresh; [done|]. injection Hins as <- <-.
  simpl in Hfresh. apply wp_bind.
  eapply wp_insert_items; [done|..].
  { simpl. rewrite fmap_app. apply elem_of_app. right. by left. }
  { rolls_back. }
  intros c4 d4 rows Hc4 (Hcnt & Hsh & Hel & Hdn) Hrows Hcells Hid.
  simpl in Hcnt, Hsh, Hel, Hdn, Hrows.
  apply wp_bind. unfold update_counter.
  eapply wp_statement; [done| |by intros ? ? [=]|].
  { rolls_back. }
  intros c5 [] d5 [= <-] Hc5.
  apply wp_bind. eapply wp_COMMIT; [done| |].
  { rolls_back. }
  intros c6 Hc6. apply wp_ret. simpl.
  eexists _, objs; split; [done|]. split; [done|].
  unfold note_created; simpl. rewrite Hcnt, Hsh, Hel, Hdn, Hrows.
  repeat split; eauto 10.
Qed.

Lemma post_shipments_run `{rt : Runtime} `{st : Storage} body now c :
  txn c = None →
  shipments_post (durable c) (run (post_shipments body now) c).1
    (run (post_shipments body now) c).2.
Proof. intros Hc. by apply (post_shipments_spec body now (durable c) c). Qed.

Lemma post_delivery_notes_run `{rt : Runtime} `{st : Storage} body now c :
  txn c = None →
  notes_post body (durable c) (run (post_delivery_notes body now) c).1
    (run (post_delivery_notes body now) c).2.
Proof. intros Hc. by apply (post_delivery_notes_spec body now (durable c) c). Qed.

Lemma created_note_row `{rt : Runtime} `{st : Storage}
    body now c c' id deliveryNoteNumber objs :
  txn c = None →
  items body = Some (Some <$> objs) →
  run (post_delivery_notes body now) c = (Ok (CreatedNote id deliveryNoteNumber), c') →
  note_created objs (durable c) (durable c') id deliveryNoteNumber.
Proof.
  intros Hidle Hits Hrun.
  pose proof (post_delivery_notes_run body now c Hidle) as Hpost.
  rewrite Hrun in Hpost; simpl in Hpost.
  destruct Hpost as (d' & objs' & [Hd' _] & Hits' & Hcreated).
  rewrite Hits in Hits'. injection Hits' as Heq.
  apply (inj (fmap Some)) in Heq. by subst.
Qed.

(** *** Start-up *)

Lemma ensure_counter_keeps name n cs key v :
  cs !! key = Some v → ensure_counter name n cs !! key = Some v.
Proof.
  intros Hkey. unfold ensure_counter. destruct (cs !! name) eqn:Hname; [done|].
  destruct (decide (name = key)) as [->|Hne]; [congruence|].
  by rewrite lookup_insert_ne.
Qed.

Lemma ensure_counter_lookup name n cs :
  ensure_counter name n cs !! name = Some (default n (cs !! name)).
Proof.
  unfold ensure_counter. destruct (cs !! name) eqn:Hname; simpl; [done|].
  by rewrite lookup_insert_eq.
Qed.

Lemma ensure_counter_other name n cs key :
  name ≠ key → ensure_counter name n cs !! key = cs !! key.
Proof.
  intros Hne. unfold ensure_counter. destruct (cs !! name); [done|].
  by rewrite lookup_insert_ne.
Qed.

Lemma wp_schema_statement d0 c (Q : outcome () → conn → Prop) :
  initializing d0 c →
  (∀ e c', initializing d0 c' → Q (Throw e) c') →
  (∀ c', initializing d0 c' → durable c' = durable c → Q (Ok ()) c') →
  wp schema_statement c Q.
Proof.
  intros (d & Hc & Hrows & Hkeep) Hthrow Hok. unfold schema_statement.
  eapply wp_statement_idle; [done|..].
  - intros c' Hc'. apply Hthrow. by exists d.
  - by intros c' e [=].
  - intros c' [] d' [= <-] Hc'. apply Hok; [by exists d|].
    destruct Hc, Hc'. congruence.
Qed.

Lemma wp_insert_or_ignore_counter name n d0 c (Q : outcome () → conn → Prop) :
  initializing d0 c →
  (∀ e c', initializing d0 c' → Q (Throw e) c') →
  (∀ c', initializing d0 c' →
         counters (durable c') = ensure_counter name n (counters (durable c)) →
         Q (Ok ()) c') →
  wp (insert_or_ignore_counter name n) c Q.
Proof.
  intros (d & Hc & Hrows & Hkeep) Hthrow Hok. unfold insert_or_ignore_counter.
  eapply wp_statement_idle; [done|..].
  - intros c' Hc'. apply Hthrow. by exists d.
  - by intros c' e [=].
  - intros c' [] d' [= <-] Hc'. apply Hok.
    + eexists. split; [done|]. split; [done|]. simpl.
      intros key v Hkey. by apply ensure_counter_keeps, Hkeep.
    + destruct Hc as [<- _], Hc' as [-> _]. done.
Qed.

Lemma initializeDatabase_spec d0 c :
  idle d0 c → wp initializeDatabase c (initializeDatabase_post d0).
Proof.
  intros Hc. unfold initializeDatabase.
  assert (initializing d0 c) as Hinit by (by exists d0).
  assert (∀ e c', initializing d0 c' →
            wp (throw e) c' (initializeDatabase_post d0)) as Hcatch.
  { intros e c' (d & Hd & Hrows & Hkeep). apply wp_throw. by exists d. }
  apply wp_try_catch.
  do 10 (apply wp_bind; eapply wp_schema_statement; [done|done|];
         clear Hinit; intros ? Hinit ?).
  apply wp_bind. eapply wp_insert_or_ignore_counter; [done|done|].
  clear Hinit. intros c1 Hinit Hc1.
  do 2 (apply wp_bind; eapply wp_schema_statement; [done|done|];
        clear Hinit; intros ? Hinit ?).
  eapply wp_insert_or_ignore_counter; [done|done|].
  clear Hinit. intros c2 (d & Hd & Hrows & Hkeep) Hc2.
  exists d. split; [done|]. split; [done|]. split; [done|].
  destruct Hc as [Hc _], Hd as [Hd _]. congruence.
Qed.

Lemma initializeDatabase_run c :
  txn c = None →
  initializeDatabase_post (durable c) (run initializeDatabase c).1
    (run initializeDatabase c).2.
Proof. intros Hc. by apply (initializeDatabase_spec (durable c) c). Qed.

(** * The sequence allocator *)

Lemma shipment_allocation `{rt : Runtime} `{st : Storage}
    body now c c' counter trackingNumber :
  txn c = None →
  counters (durable c) !! "shipmentCounter" = Some counter →
  Z.abs counter < 2 ^ 53 →
  run (post_shipments body now) c = (Ok (Created trackingNumber), c') →
  trackingNumber = "T" +:+ pretty (counter + 1)
  ∧ txn c' = None
  ∧ counters (durable c') !! "shipmentCounter" = Some (counter + 1)
  ∧ ∃ row, shipments (durable c') = shipments (durable c) ++ [row]
           ∧ s_trackingNumber row = trackingNumber.
Proof.
  intros Hidle Hrow Hsmall Hrun.
  pose proof (post_shipments_run body now c Hidle) as Hpost.
  rewrite Hrun in Hpost; simpl in Hpost.
  destruct Hpost as (d' & [Hd' Ht'] & Htn & Hcnt & _ & Hstored & _).
  unfold newCount_of in Htn, Hcnt. rewrite Hrow in Htn, Hcnt; simpl in Htn, Hcnt.
  rewrite (plus_one_exact counter Hsmall) in Htn, Hcnt.
  rewrite Hd', Hcnt.
  repeat split; first [done | by rewrite lookup_alter_eq, Hrow].
Qed.




(** The bound is the reach of the numbers: from a counter that holds 2^53,
    [+ 1] gives 2^53 again, so the handler answers with the number it read
    and stores it unchanged. *)
Lemma allocation_stalls_at_2_53 :
  saturated_parcel.1 = Ok (Created "T9007199254740992")
  ∧ counters (durable saturated_parcel.2) !! "shipmentCounter" = Some (2 ^ 53).
Proof. by vm_compute. Qed.

(** Two shipments created one after the other never share a tracking
    number: the second INSERT would violate the UNIQUE column. *)
Lemma created_tracking_number_is_fresh `{rt : Runtime} `{st : Storage}
    body now c c' trackingNumber :
  txn c = None →
  run (post_shipments body now) c = (Ok (Created trackingNumber), c') →
  trackingNumber ∉ s_trackingNumber <$> shipments (durable c).
Proof.
  intros Hidle Hrun.
  pose proof (post_shipments_run body now c Hidle) as Hpost.
  rewrite Hrun in Hpost; simpl in Hpost.
  by destruct Hpost as (d' & _ & _ & _ & Hfresh & _).
Qed.

(** A shipment creation served on its own that fails inside the [try] block
    and is answered 500 leaves the connection outside any transaction and
    on the tables it started from. *)
Lemma lone_failure_is_rolled_back `{rt : Runtime} `{st : Storage} body now c c' e :
  txn c = None →
  run (post_shipments body now) c = (Ok (ServerError e), c') →
  txn c' = None ∧ durable c' = durable c.
Proof.
  intros Hidle Hrun.
  pose proof (post_shipments_run body now c Hidle) as Hpost.
  rewrite Hrun in Hpost; simpl in Hpost. by destruct Hpost as [Hd Ht].
Qed.

(** Served on its own, whatever the outcome short of 201, also when the
    handler's promise rejects because ROLLBACK itself failed, nothing was
    committed. *)
Lemma lone_request_commits_only_on_created `{rt : Runtime} `{st : Storage} body now c :
  txn c = None →
  (∀ trackingNumber,
     (run (post_shipments body now) c).1 ≠ Ok (Created trackingNumber)) →
  durable (run (post_shipments body now) c).2 = durable c.
Proof.
  intros Hidle Hfail.
  pose proof (post_shipments_run body now c Hidle) as Hpost.
  destruct (run (post_shipments body now) c) as [[[tn|id dn| |e]|e] c']; simpl in *;
    try done; try by destruct Hpost.
  by destruct (Hfail tn).
Qed.

(** When the storage layer rejects the ROLLBACK too, the transaction stays
    open on the connection, the inserted shipment visible in it though not
    durable. *)
Lemma rejected_rollback_leaves_the_transaction_open :
  unrolled_parcel.1 = Throw SqliteFailure
  ∧ is_Some (txn unrolled_parcel.2)
  ∧ durable unrolled_parcel.2 = initial_db
  ∧ s_trackingNumber <$> shipments (view unrolled_parcel.2) = ["T1001"].
Proof.
  split; [by vm_compute|]. split; [by eexists|]. split; by vm_compute.
Qed.

(** C2, on the code.  The requests in flight share one connection, and a
    transaction belongs to the connection, not to the request that began
    it.  With four shipment creations in flight on the initial tables: the
    second one's BEGIN fails inside the transaction of the first, and the
    ROLLBACK of its [catch] block undoes what the first has done; the first
    one's COMMIT then commits the transaction the third has just begun, and
    the first is answered T1001 with nothing stored; the third reads the
    counter outside any transaction, finds 1000 again, stores its shipment
    as T1001, and its COMMIT commits the transaction of the fourth: the
    third is answered T1001 as well.  Two allocations have read and
    returned the same number.  With two creations in flight, the ROLLBACK
    of the second, carried out between the INSERT and the UPDATE of the
    first, undoes the INSERT while the UPDATE is kept: number 1001 is gone
    with no shipment to carry it.  Served one after the other two requests
    are answered T1001 and T1002. *)
Theorem interleaved_allocations_share_a_number :
  shared_number.1
  = [ Resolve (Created "T1001"); Resolve (ServerError SqliteTransaction);
      Resolve (Created "T1001"); Reject SqliteTransaction ]
  ∧ txn shared_number.2 = None
  ∧ (λ r, (s_trackingNumber r, s_createdAt r)) <$> shipments (durable shared_number.2)
    = [("T1001", "2025-01-31T08:00:00.020Z"); ("T1002", "2025-01-31T08:00:00.030Z")]
  ∧ torn_allocation.1
    = [Reject SqliteTransaction; Resolve (ServerError SqliteTransaction)]
  ∧ txn torn_allocation.2 = None
  ∧ counters (durable torn_allocation.2) !! "shipmentCounter" = Some 1001
  ∧ shipments (durable torn_allocation.2) = []
  ∧ first_parcel.1 = Ok (Created "T1001")
  ∧ (run (post_shipments (rt := plain_runtime) (st := plain_storage) (parcel None)
            "2025-01-31T08:00:00.010Z") first_parcel.2).1
    = Ok (Created "T1002").
Proof. repeat split; by vm_compute. Qed.

(** C3, on the code.  A shipment creation whose second element is [null]
    is in flight on the initial tables together with another creation.  It
    has begun its transaction and read the counter when the other one's
    BEGIN fails and the other handler's ROLLBACK ends the transaction.  Its
    two INSERTs then run outside any transaction and are stored for good;
    the [null] element throws, the ROLLBACK of its [catch] block fails for
    want of a transaction, and its promise rejects.  The request has failed
    after the counter read and before COMMIT, yet its shipment row and its
    element row are visible afterwards.  Without the [null] element the
    same interleaving fails at COMMIT, leaving the row T1001 and the
    counter at 1001.  Served on its own the request with the [null] element
    is answered 500 and rolled back. *)
Theorem interleaved_failure_is_not_rolled_back :
  stranded_failure.1
  = [Reject SqliteTransaction; Resolve (ServerError SqliteTransaction)]
  ∧ txn stranded_failure.2 = None
  ∧ counters (durable stranded_failure.2) !! "shipmentCounter" = Some 1000
  ∧ s_trackingNumber <$> shipments (durable stranded_failure.2) = ["T1001"]
  ∧ (λ e, (e_shipment_id e, e_description e, e_quantity e))
    <$> shipment_elements (durable stranded_failure.2)
    = [(1, JStr "Box", JStr "2")]
  ∧ stranded_allocation.1
    = [Reject SqliteTransaction; Resolve (ServerError SqliteTransaction)]
  ∧ txn stranded_allocation.2 = None
  ∧ counters (durable stranded_allocation.2) !! "shipmentCounter" = Some 1001
  ∧ s_trackingNumber <$> shipments (durable stranded_allocation.2) = ["T1001"]
  ∧ broken_parcel.1 = Ok (ServerError TypeError)
  ∧ durable broken_parcel.2 = initial_db.
Proof. repeat split; by vm_compute. Qed.

(** With no row for [shipmentCounter] the handler falls back on 1000 and
    answers T1001, but its UPDATE matches no row: whatever the outcome, the
    counter row is as absent after the request as before. *)
Lemma absent_counter_row_stays_absent `{rt : Runtime} `{st : Storage} body now c :
  txn c = None →
  counters (durable c) !! "shipmentCounter" = None →
  counters (durable (run (post_shipments body now) c).2) !! "shipmentCounter" = None
  ∧ ∀ trackingNumber,
      (run (post_shipments body now) c).1 = Ok (Created trackingNumber) →
      trackingNumber = "T1001".
Proof.
  intros Hidle Hrow.
  pose proof (post_shipments_run body now c Hidle) as Hpost.
  destruct (run (post_shipments body now) c) as [[[tn|id dn| |e]|e] c']; simpl in *.
  - destruct Hpost as (d' & [Hd' Ht'] & Htn & Hcnt & _).
    unfold newCount_of in Htn, Hcnt. rewrite Hrow in Htn, Hcnt; simpl in Htn, Hcnt.
    rewrite Hd', Hcnt. split; [by rewrite lookup_alter_eq, Hrow|].
    intros ? [= <-]. exact Htn.
  - done.
  - destruct Hpost as [-> _]. by split.
  - destruct Hpost as [-> _]. by split.
  - rewrite Hpost. by split.
Qed.

(** C4 as stated fails: on tables without the [shipmentCounter] row the
    first request is answered T1001 and commits the shipment, yet no counter
    row exists afterwards; the second request computes 1001 again, fails on
    the UNIQUE tracking number and is answered 500, the row still absent. *)
Lemma absent_counter_row_is_not_created :
  orphan_first.1 = Ok (Created "T1001")
  ∧ counters (view orphan_first.2) !! "shipmentCounter" = None
  ∧ s_trackingNumber <$> shipments (view orphan_first.2) = ["T1001"]
  ∧ orphan_second.1 = Ok (ServerError SqliteConstraint)
  ∧ counters (view orphan_second.2) !! "shipmentCounter" = None.
Proof. repeat split; by vm_compute. Qed.

(** C4, amended.  A counter row that is absent is created, holding 1000,
    by [initializeDatabase], which the server awaits before it listens and
    which leaves a row that is there as it is.  When the shipment counter
    row was absent, the first shipment created after start-up is T1001 and
    1001 is stored, and the next one reads it: it is T1002 and 1002 is
    stored.  An allocation by itself never creates the row. *)
Theorem counter_rows_are_created_at_start_up `{rt : Runtime} `{st : Storage} c c1 :
  txn c = None →
  run initializeDatabase c = (Ok (), c1) →
  txn c1 = None
  ∧ counters (durable c1) !! "shipmentCounter"
    = Some (default 1000 (counters (durable c) !! "shipmentCounter"))
  ∧ counters (durable c1) !! "deliveryNoteCounter"
    = Some (default 1000 (counters (durable c) !! "deliveryNoteCounter"))
  ∧ (counters (durable c) !! "shipmentCounter" = None →
     ∀ body now c2 trackingNumber,
       run (post_shipments body now) c1 = (Ok (Created trackingNumber), c2) →
       trackingNumber = "T1001"
       ∧ counters (durable c2) !! "shipmentCounter" = Some 1001
       ∧ ∀ body' now' c3 trackingNumber',
           run (post_shipments body' now') c2 = (Ok (Created trackingNumber'), c3) →
           trackingNumber' = "T1002"
           ∧ counters (durable c3) !! "shipmentCounter" = Some 1002)
  ∧ (∀ body now c',
       txn c' = None →
       counters (durable c') !! "shipmentCounter" = None →
       counters (durable (run (post_shipments body now) c').2) !! "shipmentCounter"
       = None).
Proof.
  intros Hidle Hrun.
  pose proof (initializeDatabase_run c Hidle) as Hpost.
  rewrite Hrun in Hpost; simpl in Hpost.
  destruct Hpost as (d & [Hd Ht] & _ & _ & Hcounters).
  assert (counters (durable c1) !! "shipmentCounter"
          = Some (default 1000 (counters (durable c) !! "shipmentCounter"))) as Hshipment.
  { rewrite Hd, Hcounters.
    apply ensure_counter_keeps, ensure_counter_lookup. }
  split; [done|]. split; [done|].
  split; [by rewrite Hd, Hcounters, ensure_counter_lookup, ensure_counter_other|].
  split.
  - intros Habsent body now c2 tn Hfirst. rewrite Habsent in Hshipment.
    destruct (shipment_allocation body now c1 c2 1000 tn Ht Hshipment) as
      (-> & Ht2 & Hc2 & _); [done|done|].
    split; [done|]. split; [done|].
    intros body' now' c3 tn' Hsecond.
    destruct (shipment_allocation body' now' c2 c3 1001 tn' Ht2 Hc2) as
      (-> & _ & Hc3 & _); [done|done|]. by split.
  - intros body now c' Hidle' Habsent.
    by apply absent_counter_row_stays_absent.
Qed.

(** Start-up on tables with no counter row, then two shipments. *)
Lemma counter_rows_are_created_at_start_up_witness :
  started.1 = Ok ()
  ∧ counters (durable started.2) !! "shipmentCounter" = Some 1000
  ∧ first_after_start.1 = Ok (Created "T1001")
  ∧ counters (durable first_after_start.2) !! "shipmentCounter" = Some 1001
  ∧ second_after_start.1 = Ok (Created "T1002")
  ∧ counters (durable second_after_start.2) !! "shipmentCounter" = Some 1002.
Proof.
  split; [reflexivity|].
  destruct (counter_rows_are_created_at_start_up (rt := plain_runtime)
              (st := plain_storage) (connect no_counter_db []) started.2)
    as (_ & Hstarted & _ & Hallocations & _); [reflexivity|by vm_compute|].
  split; [exact Hstarted|]. split; [reflexivity|].
  destruct (Hallocations eq_refl (parcel None) "2025-01-31T08:00:00.000Z"%string
              first_after_start.2 "T1001"%string)
    as (_ & Hfirst & Hnext); [by vm_compute|].
  split; [exact Hfirst|]. split; [reflexivity|].
  destruct (Hnext (parcel None) "2025-01-31T08:05:00.000Z"%string
              second_after_start.2 "T1002"%string) as [_ Hsecond];
    [by vm_compute|exact Hsecond].
Defined.

(** * Delivery-note arithmetic *)


Lemma subtotal_of_nan_acc `{rt : Runtime} objs :
  subtotal_of objs PrimFloat.nan = PrimFloat.nan.
Proof.
  induction objs as [|item rest IH]; [done|].
  unfold subtotal_of in *; simpl. by rewrite nan_add_l.
Qed.

Lemma subtotal_of_nan `{rt : Runtime} objs acc item :
  item ∈ objs →
  parseFloat (it_quantity item) = PrimFloat.nan
  ∨ parseFloat (it_price item) = PrimFloat.nan →
  subtotal_of objs acc = PrimFloat.nan.
Proof.
  intros Hin Hnan. revert acc.
  induction Hin as [item rest|item other rest _ IH]; intros acc.
  - unfold subtotal_of; simpl.
    destruct Hnan as [-> | ->];
      rewrite ?nan_mul_l, ?nan_mul_r, nan_add_r; apply subtotal_of_nan_acc.
  - unfold subtotal_of; simpl. by apply IH.
Qed.

Lemma column_REAL_number `{st : Storage} f : column REAL (JNum f) = real_cell f.
Proof. by apply column_number. Qed.



(** C10 as stated fails: a note whose only item has the quantity ["two"]
    is created, and the subtotal the handler computes is NaN, but what the
    table holds for subtotal, vat and total is NULL, not NaN. *)
Lemma nan_subtotal_is_stored_as_null :
  unparsable_note.1 = Ok (CreatedNote 1 "DN1001")
  ∧ subtotal_of (rt := plain_runtime) unparsable_item 0%float = PrimFloat.nan
  ∧ ∃ row, delivery_notes (durable unparsable_note.2) = [row]
           ∧ n_subtotal row = JNull ∧ n_vat row = JNull ∧ n_total row = JNull
           ∧ n_subtotal row ≠ JNum PrimFloat.nan.
Proof.
  split; [reflexivity|]. split; [reflexivity|].
  eexists. split; [by vm_compute|]. by repeat split.
Qed.

(** C10, amended.  The INSERT loop skips exactly the items with a falsy
    description, a falsy quantity or a price that is not of number type.
    The stored subtotal is nevertheless the sum over every submitted item,
    while the stored item rows are those of the items the loop keeps, each
    value as its column stores it; when some submitted item has a quantity
    or a price that [parseFloat] reads as NaN, the computed subtotal is NaN
    and the subtotal, vat and total cells all hold NULL.  On the initial
    tables, a note whose only item has an empty description is stored with
    subtotal 200 and no item row, so the subtotal differs from the sum over
    the stored items. *)
Theorem subtotal_counts_every_submitted_item `{rt : Runtime} `{st : Storage} :
  (∀ item, kept item = false ↔
     truthy (it_description item) = false ∨ truthy (it_quantity item) = false
     ∨ typeof_number (it_price item) = false)
  ∧ (∀ body now c c' id deliveryNoteNumber objs,
     txn c = None →
     items body = Some (Some <$> objs) →
     run (post_delivery_notes body now) c
       = (Ok (CreatedNote id deliveryNoteNumber), c') →
     ∃ row rows,
       delivery_notes (durable c') = delivery_notes (durable c) ++ [row]
       ∧ delivery_note_items (durable c') = delivery_note_items (durable c) ++ rows
       ∧ row_cells <$> rows = stored_cells <$> filter (λ item, kept item = true) objs
       ∧ n_subtotal row = real_cell (subtotal_of objs 0%float)
       ∧ ((∃ item, item ∈ objs
                   ∧ (parseFloat (it_quantity item) = PrimFloat.nan
                      ∨ parseFloat (it_price item) = PrimFloat.nan)) →
          subtotal_of objs 0%float = PrimFloat.nan
          ∧ n_subtotal row = JNull ∧ n_vat row = JNull ∧ n_total row = JNull))
  ∧ (∃ c' row,
       run (post_delivery_notes (note (Some <$> undescribed_item))
              "2025-01-31T08:00:00.000Z")
         (connect initial_db []) = (Ok (CreatedNote 1 "DN1001"), c')
       ∧ delivery_notes (durable c') = [row]
       ∧ n_subtotal row = JNum 200
       ∧ delivery_note_items (durable c') = []
       ∧ n_subtotal row ≠ JNum (sum_of_rows (delivery_note_items (durable c')))).
Proof.
  split; [|split].
  - intros item. unfold kept.
    destruct (truthy (it_description item)), (truthy (it_quantity item)),
      (typeof_number (it_price item)); simpl; intuition discriminate.
  - intros body now c c' id dn objs Hidle Hits Hrun.
    destruct (created_note_row _ _ _ _ _ _ _ Hidle Hits Hrun)
      as (_ & _ & _ & (row & Hrows & _ & Hdn & Hsub & Hvat & Htot)
          & (rows & Hitems & Hcells & _) & _).
    exists row, rows. rewrite column_REAL_number in Hsub.
    do 4 (split; [done|]).
    intros (item & Hin & Hnan).
    rewrite Hsub, Htot, Hvat, (subtotal_of_nan objs _ item Hin Hnan).
    by rewrite nan_mul_l, nan_add_l.
  - eexists _, _. split; [by vm_compute|]. simpl.
    do 3 (split; [reflexivity|]). intros Heq.
    apply (f_equal (λ v, match v with JNum f => f | _ => 0%float end)) in Heq.
    revert Heq. by apply float_neq.
Qed.

(** A note whose only item has the text ["2"] for quantity and the number 7
    for description: the item is kept, and stored with the number 2 in
    the INTEGER column and the text ["7"] in the TEXT column. *)
Lemma subtotal_counts_every_submitted_item_witness :
  retyped_note.1 = Ok (CreatedNote 1 "DN1001")
  ∧ ∃ rows, delivery_note_items (durable retyped_note.2) = rows
            ∧ row_cells <$> rows = [(JNum 2, JStr "7", JNum 100)].
Proof.
  split; [reflexivity|].
  destruct (subtotal_counts_every_submitted_item (rt := plain_runtime)
              (st := plain_storage)) as (_ & Hgeneral & _).
  destruct (Hgeneral (note (Some <$> retyped_item)) "2025-01-31T08:00:00.000Z"%string
              (connect initial_db []) retyped_note.2 1 "DN1001"%string
              retyped_item eq_refl eq_refl)
    as (row & rows & _ & Hrows & Hcells & _); [by vm_compute|].
  exists rows. split; [exact Hrows|exact Hcells].
Defined.

(** * The waybill header box *)

(** C5 as stated fails: a shipment with only a job number and one with only
    a courier charge each have one optional field, yet their header boxes
    are 70 and 90 high; no base and increment fit both. *)
Lemma header_height_not_per_field : ¬ height_is_base_plus_increment_per_field.
Proof.
  intros (base & increment & Hclaim).
  pose proof (Hclaim (stored (JStr "J-17") JNull JNull)) as Hjob.
  pose proof (Hclaim (stored JNull JNull (JNum 12.5))) as Hcharge.
  change (optional_fields_present (stored (JStr "J-17") JNull JNull)) with 1%nat in Hjob.
  change (optional_fields_present (stored JNull JNull (JNum 12.5))) with 1%nat in Hcharge.
  rewrite <-Hcharge in Hjob. revert Hjob. by apply float_neq.
Qed.

(** C5, amended. The header box is 90 high when the shipment has a courier
    charge and 70 otherwise; the job number and the CE number do not change
    its height. *)
Theorem header_height_follows_courier_charge :
  (∀ shipment,
     headerBoxHeight shipment
     = if truthy (s_courier_charge shipment) then 90%float else 70%float)
  ∧ (∀ shipment job ce,
     headerBoxHeight (with_job_and_ce job ce shipment) = headerBoxHeight shipment).
Proof.
  split.
  - intros shipment. unfold headerBoxHeight.
    by destruct (truthy (s_courier_charge shipment)).
  - intros shipment job ce. reflexivity.
Qed.

(** * wrapText *)

Lemma wrap_words_not_nil `{rt : Runtime} f fontSize maxWidth words lines currentLine :
  wrap_words f fontSize maxWidth words lines currentLine ≠ [].
Proof.
  revert lines currentLine.
  induction words as [|word rest IH]; intros lines currentLine; simpl.
  - by destruct lines.
  - destruct (_ <? _)%float; apply IH.
Qed.

(** C8. For [null] and for the empty string, [wrapText] returns the one
    line [""]; whatever the text, it never returns an empty list.  Both hold
    of the SQLite server's [wrapText] outright.  The MySQL server's never
    returns an empty list either, and returns the one line [""] for [null]
    and for the empty string whenever the empty string measures no wider
    than [maxWidth]. *)
Theorem wrapText_of_nothing_is_one_empty_line `{rt : Runtime} f fontSize maxWidth :
  wrapText None f fontSize maxWidth = [""]
  ∧ wrapText (Some "") f fontSize maxWidth = [""]
  ∧ (∀ text, wrapText text f fontSize maxWidth ≠ [])
  ∧ (∀ text, wrapText_mysql text f fontSize maxWidth ≠ [])
  ∧ ((maxWidth <? widthOfTextAtSize f "" fontSize)%float = false →
     wrapText_mysql None f fontSize maxWidth = [""]
     ∧ wrapText_mysql (Some "") f fontSize maxWidth = [""]).
Proof.
  split; [done|]. split; [done|].
  split; [intros text; apply wrap_words_not_nil|].
  split; [intros text; apply wrap_words_not_nil|].
  intros Hfits. unfold wrapText_mysql; simpl.
  change ("" +:+ "" +:+ "") with "". by rewrite Hfits.
Qed.

(** The width of the address column, in a font that measures the empty
    string as 0. *)
Lemma wrapText_of_nothing_is_one_empty_line_witness :
  (237.5 <? widthOfTextAtSize (Runtime := plain_runtime) Helvetica "" 10)%float = false
  ∧ wrapText_mysql (rt := plain_runtime) None Helvetica 10 237.5 = [""]
  ∧ wrapText_mysql (rt := plain_runtime) (Some "") Helvetica 10 237.5 = [""].
Proof.
  split; [reflexivity|].
  apply (wrapText_of_nothing_is_one_empty_line (rt := plain_runtime) Helvetica 10 237.5).
  reflexivity.
Defined.

(** C9, on the code: the SQLite server's [wrapText] splits on spaces only.
    Whatever the font and the width, ["a\nb"] does not wrap as ["a b"]
    does: the line feed stays inside a word. *)
Theorem wrapText_keeps_line_breaks `{rt : Runtime} f fontSize maxWidth :
  wrapText (Some two_lines) f fontSize maxWidth
  ≠ wrapText (Some "a b") f fontSize maxWidth.
Proof.
  unfold wrapText; simpl.
  repeat match goal with |- context [(?a <? ?b)%float] => destruct (a <? b)%float end;
    discriminate.
Qed.

Lemma replace_line_breaks_cons c r :
  replace_line_breaks (String c r)
  = if Ascii.eqb c "013"%char
    then String " "%char (replace_line_breaks (after_carriage_return r))
    else if Ascii.eqb c "010"%char then String " "%char (replace_line_breaks r)
    else String c (replace_line_breaks r).
Proof.
  destruct r as [|c' r']; [by simpl; destruct (Ascii.eqb c "013")|].
  unfold after_carriage_return.
  change (replace_line_breaks (String c (String c' r'))) with
    (if Ascii.eqb c "013"%char
     then if Ascii.eqb c' "010"%char then String " "%char (replace_line_breaks r')
          else String " "%char (replace_line_breaks (String c' r'))
     else if Ascii.eqb c "010"%char
          then String " "%char (replace_line_breaks (String c' r'))
          else String c (replace_line_breaks (String c' r'))).
  by destruct (Ascii.eqb c "013"), (Ascii.eqb c' "010").
Qed.

Lemma after_carriage_return_length r :
  (String.length (after_carriage_return r) ≤ String.length r)%nat.
Proof.
  destruct r as [|c' r']; simpl; [done|].
  destruct (Ascii.eqb c' "010"); simpl; lia.
Qed.

Lemma replace_line_breaks_clean s : no_line_break (replace_line_breaks s) = true.
Proof.
  remember (String.length s) as n eqn:Hn.
  revert s Hn. induction (lt_wf n) as [n _ IH]; intros s ->.
  destruct s as [|c r]; [done|]. rewrite replace_line_breaks_cons.
  destruct (Ascii.eqb c "013") eqn:Hcr; [|destruct (Ascii.eqb c "010") eqn:Hlf];
    simpl; rewrite ?Hcr, ?Hlf; simpl.
  - pose proof (after_carriage_return_length r).
    apply (IH (String.length (after_carriage_return r))); [simpl; lia|done].
  - apply (IH (String.length r)); [simpl; lia|done].
  - apply (IH (String.length r)); [simpl; lia|done].
Qed.

Lemma replace_line_breaks_id s :
  no_line_break s = true → replace_line_breaks s = s.
Proof.
  induction s as [|c r IH]; [done|]. simpl.
  destruct (Ascii.eqb c "013"); [done|].
  destruct (Ascii.eqb c "010"); [done|].
  simpl. intros Hr. by rewrite IH.
Qed.

(** The MySQL server's [wrapText] does normalize: a text wraps as the text
    with its line breaks replaced by spaces does. *)
Lemma wrapText_mysql_normalizes_line_breaks `{rt : Runtime} s f fontSize maxWidth :
  wrapText_mysql (Some s) f fontSize maxWidth
  = wrapText_mysql (Some (replace_line_breaks s)) f fontSize maxWidth.
Proof.
  unfold wrapText_mysql.
  destruct (String.eqb_spec s "") as [->|Hs]; [done|].
  destruct (String.eqb_spec (replace_line_breaks s) "") as [->|_]; [done|].
  by rewrite (replace_line_breaks_id _ (replace_line_breaks_clean s)).
Qed.

(** * The pass over the finished pages *)

Lemma content_foldl_draw ops p :
  content (foldl (λ p op, draw op p) p ops) = content p ++ ops.
Proof.
  revert p. induction ops as [|op ops IH]; intros p; simpl.
  - by rewrite app_nil_r.
  - rewrite IH. simpl. by rewrite <-app_assoc.
Qed.

Lemma footer_loop_spec `{rt : Runtime} width settings shipment remaining i pages :
  (i + remaining = length pages)%nat →
  length (footer_loop width settings shipment remaining i pages) = length pages
  ∧ ∀ j p, pages !! j = Some p →
      footer_loop width settings shipment remaining i pages !! j
      = Some (if decide (i ≤ j)%nat
              then stamp width settings shipment (length pages) j p
              else p).
Proof.
  revert i pages. induction remaining as [|remaining IH]; intros i pages Hlen; simpl.
  - split; [done|]. intros j p Hj. pose proof (lookup_lt_Some _ _ _ Hj).
    by rewrite decide_False by lia.
  - destruct (lookup_lt_is_Some_2 pages i) as [pi Hpi]; [lia|]. rewrite Hpi.
    destruct (IH (S i) (<[i := stamp width settings shipment (length pages) i pi]> pages))
      as [Hl Hs]; [rewrite length_insert; lia|].
    rewrite length_insert in Hl, Hs. split; [done|].
    intros j p Hj. destruct (decide (i = j)) as [<-|Hne].
    + erewrite Hs; [|by apply list_lookup_insert_eq, lookup_lt_Some with pi].
      rewrite decide_False by lia. rewrite decide_True by lia. congruence.
    + erewrite Hs; [|by rewrite list_lookup_insert_ne].
      destruct (decide (S i ≤ j)%nat), (decide (i ≤ j)%nat); try done; lia.
Qed.

Lemma finalize_lookup `{rt : Runtime} width settings shipment pages i p :
  pages !! i = Some p →
  finalize width settings shipment pages !! i
  = Some (stamp width settings shipment (length pages) i p).
Proof.
  intros Hi. unfold finalize.
  destruct (footer_loop_spec width settings shipment (length pages) 0 pages) as [_ Hs];
    [done|].
  rewrite (Hs i p Hi). by rewrite decide_True by lia.
Qed.

(** C6. The pass keeps the number of pages, and on page [i] (counting from
    0) of [N] it adds, after what the page already holds, first the
    signature block and then the footer texts.  The signature block is
    drawn on the last page and is empty on every other page: a box 60 high
    from height 60, 40 from either edge, a grey rule at height 100, and the
    labels "Sender Signature:" and "Recipient Signature:" at height 105.
    The footer texts are the disclaimer when one is configured, the
    creation date, and "Page i+1 of N", centred, with [N] the number of
    pages of the document; all of them are drawn at height 40, so that
    outside the last page nothing is drawn but text on the footer line. *)
Theorem finalize_stamps_every_page `{rt : Runtime} width settings shipment pages i p :
  pages !! i = Some p →
  length (finalize width settings shipment pages) = length pages
  ∧ ∃ p' signature texts,
      finalize width settings shipment pages !! i = Some p'
      ∧ content p' = content p ++ signature ++ texts
      ∧ (i = (length pages - 1)%nat →
         signature
         = [ DrawRectangle 40 60 (page_width p - 80) 60 (0, 0, 0) 1.5;
             DrawLine 40 100 (page_width p - 40) 100 0.5 (0.75, 0.75, 0.75);
             DrawText "Sender Signature:" 50 105 Helvetica 10 None;
             DrawText "Recipient Signature:" (width / 2 + 10) 105 Helvetica 10 None
           ]%float)
      ∧ (i ≠ (length pages - 1)%nat → signature = [])
      ∧ texts
        = match disclaimer settings with
          | Some text => [DrawText text 40 40 Helvetica 8 (Some (0.5, 0.5, 0.5)%float)]
          | None => []
          end
          ++ [ DrawText (creationDate shipment)
                 (page_width p - 40
                  - widthOfTextAtSize Helvetica (creationDate shipment) 10)%float
                 40 Helvetica 10 (Some (0.5, 0.5, 0.5)%float);
               DrawText ("Page " +:+ pretty (i + 1)%nat +:+ " of " +:+ pretty (length pages))
                 ((page_width p
                   - widthOfTextAtSize Helvetica
                       ("Page " +:+ pretty (i + 1)%nat +:+ " of "
                        +:+ pretty (length pages)) 10) / 2)%float
                 40 Helvetica 10 (Some (0.5, 0.5, 0.5)%float) ]
      ∧ Forall on_footer_line texts.
Proof.
  intros Hi. split.
  { unfold finalize. by apply footer_loop_spec. }
  exists (stamp width settings shipment (length pages) i p).
  eexists (if bool_decide (i = (length pages - 1)%nat)
           then signature_block width (page_width p) else []), _.
  split; [by apply finalize_lookup|].
  split; [unfold stamp, footer; by rewrite content_foldl_draw|].
  split; [intros ->; by rewrite bool_decide_eq_true_2|].
  split; [intros Hne; by rewrite bool_decide_eq_false_2|].
  split; [reflexivity|].
  destruct (disclaimer settings); repeat constructor; by repeat eexists.
Qed.

(** A document of two blank pages with a disclaimer configured: the second
    page ends up with the signature block, then the disclaimer, the date
    and "Page 2 of 2"; the first with the disclaimer, the date and
    "Page 1 of 2" only. *)
Lemma finalize_stamps_every_page_witness :
  two_pages !! 1%nat = Some blank_page
  ∧ content <$> finalize (rt := plain_runtime) (page_width blank_page) with_disclaimer
                  (stored JNull JNull JNull) two_pages !! 1%nat
    = Some ([ DrawRectangle 40 60 (page_width blank_page - 80) 60 (0, 0, 0) 1.5;
              DrawLine 40 100 (page_width blank_page - 40) 100 0.5 (0.75, 0.75, 0.75);
              DrawText "Sender Signature:" 50 105 Helvetica 10 None;
              DrawText "Recipient Signature:" (page_width blank_page / 2 + 10) 105
                Helvetica 10 None;
              DrawText "E&OE" 40 40 Helvetica 8 (Some (0.5, 0.5, 0.5));
              DrawText "2025-01-31T08:00:00.000Z" (page_width blank_page - 40 - 120) 40
                Helvetica 10 (Some (0.5, 0.5, 0.5));
              DrawText "Page 2 of 2" ((page_width blank_page - 55) / 2) 40
                Helvetica 10 (Some (0.5, 0.5, 0.5)) ]%float)
  ∧ content <$> finalize (rt := plain_runtime) (page_width blank_page) with_disclaimer
                  (stored JNull JNull JNull) two_pages !! 0%nat
    = Some ([ DrawText "E&OE" 40 40 Helvetica 8 (Some (0.5, 0.5, 0.5));
              DrawText "2025-01-31T08:00:00.000Z" (page_width blank_page - 40 - 120) 40
                Helvetica 10 (Some (0.5, 0.5, 0.5));
              DrawText "Page 1 of 2" ((page_width blank_page - 55) / 2) 40
                Helvetica 10 (Some (0.5, 0.5, 0.5)) ]%float).
Proof.
  split; [reflexivity|].
  destruct (finalize_stamps_every_page (rt := plain_runtime) (page_width blank_page)
              with_disclaimer (stored JNull JNull JNull) two_pages 1 blank_page eq_refl)
    as (_ & p1 & signature1 & texts1 & Hp1 & Hcontent1 & Hlast & _ & Htexts1 & _).
  destruct (finalize_stamps_every_page (rt := plain_runtime) (page_width blank_page)
              with_disclaimer (stored JNull JNull JNull) two_pages 0 blank_page eq_refl)
    as (_ & p0 & signature0 & texts0 & Hp0 & Hcontent0 & _ & Hother & Htexts0 & _).
  rewrite Hp1, Hp0. simpl.
  rewrite Hcontent1, Hcontent0, (Hlast eq_refl), Hother, Htexts1, Htexts0 by done.
  split; by vm_compute.
Defined.

(** * More on [wrapText] *)

Lemma split_space_not_nil s : split_space s ≠ [].
Proof.
  destruct s as [|c r]; simpl; [done|].
  destruct (Ascii.eqb c " "); [done|]. by destruct (split_space r).
Qed.

Lemma split_space_app a b :
  split_space (a +:+ " " +:+ b) = split_space a ++ split_space b.
Proof.
  induction a as [|c r IH]; [done|].
  change (String c r +:+ " " +:+ b) with (String c (r +:+ " " +:+ b)).
  simpl. rewrite IH. destruct (Ascii.eqb c " "); [done|].
  pose proof (split_space_not_nil r). by destruct (split_space r).
Qed.

Lemma split_space_no_space s : Forall (λ w, no_space w = true) (split_space s).
Proof.
  induction s as [|c r IH]; simpl; [by repeat constructor|].
  destruct (Ascii.eqb c " ") eqn:Hc; [by constructor|].
  destruct (split_space r) as [|w ws]; [by repeat constructor; simpl; rewrite Hc|].
  inversion_clear IH. constructor; [|done]. simpl. by rewrite Hc.
Qed.

Lemma split_space_word w : no_space w = true → split_space w = [w].
Proof.
  induction w as [|c r IH]; simpl; [done|].
  destruct (Ascii.eqb c " "); [done|]. simpl. intros Hr. by rewrite IH.
Qed.

Lemma words_of_app l1 l2 : words_of (l1 ++ l2) = words_of l1 ++ words_of l2.
Proof. unfold words_of. by rewrite bind_app, filter_app. Qed.

Lemma wrap_words_words `{rt : Runtime} f fontSize maxWidth words lines currentLine :
  Forall (λ w, no_space w = true) words →
  words_of (wrap_words f fontSize maxWidth words lines currentLine)
  = words_of (lines ++ [currentLine]) ++ filter (λ w, w ≠ "") words.
Proof.
  intros Hwords. revert lines currentLine.
  induction Hwords as [|word rest Hword _ IH]; intros lines currentLine; simpl.
  - by rewrite app_nil_r.
  - assert (words_of [word] = filter (λ w, w ≠ "") [word]) as Hone.
    { unfold words_of. by rewrite bind_singleton, split_space_word. }
    rewrite (filter_app _ [word] rest), app_assoc, <-Hone.
    destruct (_ <? _)%float; rewrite IH; f_equal.
    + by rewrite words_of_app.
    + rewrite !words_of_app. rewrite <-app_assoc. f_equal.
      destruct (String.eqb_spec currentLine "") as [->|Hne].
      * done.
      * unfold words_of.
        by rewrite !bind_singleton, split_space_app, filter_app.
Qed.

(** Wrapping neither loses, adds nor reorders a word: the non-empty words
    of the lines [wrapText] returns, read in order, are the non-empty words
    of the text; for the MySQL server's [wrapText] they are those of the
    text with its line breaks replaced by spaces. *)
Theorem wrapText_keeps_the_words `{rt : Runtime} s f fontSize maxWidth :
  words_of (wrapText (Some s) f fontSize maxWidth) = words_of [s]
  ∧ words_of (wrapText_mysql (Some s) f fontSize maxWidth)
    = words_of [replace_line_breaks s].
Proof.
  split.
  - unfold wrapText. destruct (String.eqb_spec s "") as [->|Hs]; [reflexivity|].
    rewrite wrap_words_words by apply split_space_no_space.
    unfold words_of. by rewrite bind_singleton.
  - unfold wrapText_mysql.
    replace (if String.eqb s "" then "" else replace_line_breaks s)
      with (replace_line_breaks s) by (by destruct (String.eqb_spec s "") as [->|Hs]).
    rewrite wrap_words_words by apply split_space_no_space.
    unfold words_of. by rewrite bind_singleton.
Qed.

Lemma wrap_words_lines `{rt : Runtime} (P : string → Prop) f fontSize maxWidth
    words lines currentLine :
  (∀ line, fits f fontSize maxWidth line → P line) →
  Forall P words → Forall P lines → P currentLine →
  Forall P (wrap_words f fontSize maxWidth words lines currentLine).
Proof.
  intros Hfits Hwords. revert lines currentLine.
  induction Hwords as [|word rest Hword _ IH]; intros lines currentLine Hlines Hcur; simpl.
  - apply Forall_app. by split; [|constructor].
  - destruct (_ <? _)%float eqn:Hwide.
    + apply IH; [|done]. apply Forall_app. by split; [|constructor].
    + apply IH; [done|]. by apply Hfits.
Qed.

(** A line [wrapText] returns is no wider than [maxWidth], unless it is a
    single word of the text (one too wide to fit on a line of its own) or
    the empty line. *)
Theorem wrapText_lines_fit_or_are_single_words `{rt : Runtime} s f fontSize maxWidth line :
  line ∈ wrapText (Some s) f fontSize maxWidth →
  fits f fontSize maxWidth line ∨ line ∈ split_space s ∨ line = "".
Proof.
  unfold wrapText. intros Hline.
  assert (Forall (λ line, fits f fontSize maxWidth line ∨ line ∈ split_space s ∨ line = "")
            (wrap_words f fontSize maxWidth
               (if String.eqb s "" then [] else split_space s) [] "")) as Hall.
  { apply wrap_words_lines; [by left| |by constructor|by right; right].
    destruct (String.eqb s ""); [by constructor|].
    apply Forall_forall. intros w Hw. right. by left. }
  by apply (proj1 (Forall_forall _ _) Hall).
Qed.

(** The text ["a bb"] at 5 points a character in a width of 12: the line
    ["bb"] fits. *)
Lemma wrapText_lines_fit_or_are_single_words_witness :
  "bb" ∈ wrapText (rt := plain_runtime) (Some "a bb") Helvetica 10 12
  ∧ fits (rt := plain_runtime) Helvetica 10 12 "bb".
Proof.
  assert ("bb" ∈ wrapText (rt := plain_runtime) (Some "a bb") Helvetica 10 12) as Hin.
  { apply (bool_decide_unpack _). by vm_compute. }
  split; [exact Hin|].
  destruct (wrapText_lines_fit_or_are_single_words (rt := plain_runtime)
              "a bb" Helvetica 10 12 "bb" Hin) as [Hfit|[Hword| Hempty]].
  - exact Hfit.
  - reflexivity.
  - discriminate.
Defined.

Lemma wrap_words_prefix `{rt : Runtime} f fontSize maxWidth words lines currentLine :
  ∃ more, wrap_words f fontSize maxWidth words lines currentLine = lines ++ more
          ∧ more ≠ [].
Proof.
  revert lines currentLine.
  induction words as [|word rest IH]; intros lines currentLine; simpl.
  - by exists [currentLine].
  - destruct (_ <? _)%float; [|apply IH].
    destruct (IH (lines ++ [currentLine]) word) as (more & -> & _).
    exists (currentLine :: more). by rewrite <-app_assoc.
Qed.

(** When the first word of a text is wider than [maxWidth], [wrapText]
    pushes the still empty current line: the lines it returns start with an
    empty line, the word following on the next. *)
Theorem wrapText_wide_first_word_leaves_empty_line `{rt : Runtime}
    s word rest f fontSize maxWidth :
  s ≠ "" →
  split_space s = word :: rest →
  (maxWidth <? widthOfTextAtSize f word fontSize)%float = true →
  ∃ more, wrapText (Some s) f fontSize maxWidth = "" :: more ∧ more ≠ [].
Proof.
  intros Hs Hsplit Hwide. unfold wrapText.
  destruct (String.eqb_spec s "") as [|_]; [done|].
  rewrite Hsplit. simpl. change ("" +:+ "" +:+ word) with word. rewrite Hwide.
  destruct (wrap_words_prefix f fontSize maxWidth rest [""] word)
    as (more & -> & Hmore).
  by exists more.
Qed.

(** The one word ["abcdef"], 30 wide, in a width of 12. *)
Lemma wrapText_wide_first_word_leaves_empty_line_witness :
  (12 <? widthOfTextAtSize (Runtime := plain_runtime) Helvetica "abcdef" 10)%float = true
  ∧ ∃ more, wrapText (rt := plain_runtime) (Some "abcdef") Helvetica 10 12 = "" :: more
            ∧ more ≠ [].
Proof.
  split; [reflexivity|].
  apply (wrapText_wide_first_word_leaves_empty_line (rt := plain_runtime)
           "abcdef" "abcdef" [] Helvetica 10 12); [discriminate|reflexivity|reflexivity].
Defined.

Lemma no_line_break_app a b :
  no_line_break (a +:+ b) = no_line_break a && no_line_break b.
Proof.
  induction a as [|c r IH]; [done|].
  change (String c r +:+ b) with (String c (r +:+ b)). simpl. rewrite IH.
  by rewrite andb_assoc.
Qed.

Lemma split_space_no_line_break s :
  no_line_break s = true → Forall (λ w, no_line_break w = true) (split_space s).
Proof.
  induction s as [|c r IH]; simpl; [by repeat constructor|].
  intros [[Hcr Hlf]%andb_prop Hr]%andb_prop. specialize (IH Hr).
  destruct (Ascii.eqb c " "); [by constructor|].
  destruct (split_space r) as [|w ws].
  - repeat constructor. simpl. by rewrite Hcr, Hlf.
  - inversion_clear IH. constructor; [|done]. simpl. by rewrite Hcr, Hlf.
Qed.

Lemma wrap_words_closed `{rt : Runtime} (P : string → Prop) f fontSize maxWidth
    words lines currentLine :
  (∀ a sep b, P a → P sep → P b → P (a +:+ sep +:+ b)) →
  P "" → P " " →
  Forall P words → Forall P lines → P currentLine →
  Forall P (wrap_words f fontSize maxWidth words lines currentLine).
Proof.
  intros Happ Hempty Hspace Hwords. revert lines currentLine.
  induction Hwords as [|word rest Hword _ IH]; intros lines currentLine Hlines Hcur; simpl.
  - apply Forall_app. by split; [|constructor].
  - destruct (_ <? _)%float.
    + apply IH; [|done]. apply Forall_app. by split; [|constructor].
    + apply IH; [done|]. apply Happ; [done| |done]. by destruct (String.eqb _ _).
Qed.

(** No line the MySQL server's [wrapText] returns holds a carriage return
    or a line feed, whatever the text. *)
Theorem wrapText_mysql_lines_have_no_line_break `{rt : Runtime} text f fontSize maxWidth :
  Forall (λ line, no_line_break line = true) (wrapText_mysql text f fontSize maxWidth).
Proof.
  unfold wrapText_mysql.
  apply wrap_words_closed; try done.
  - intros a sep b Ha Hsep Hb. by rewrite !no_line_break_app, Ha, Hsep, Hb.
  - apply split_space_no_line_break.
    destruct text as [s|]; [|done].
    destruct (String.eqb s ""); [done|]. apply replace_line_breaks_clean.
Qed.

(** * The elements section of the waybill *)

Lemma foldl_draw_on ops l :
  foldl (λ l op, draw_on op l) l ops
  = {| lay_finished := lay_finished l;
       lay_page := foldl (λ p op, draw op p) (lay_page l) ops;
       lay_y := lay_y l |}.
Proof.
  revert l. induction ops as [|op ops IH]; intros l; simpl.
  - by destruct l.
  - by rewrite IH.
Qed.

Lemma drawn_app ps qs : drawn (ps ++ qs) = drawn ps ++ drawn qs.
Proof. apply bind_app. Qed.

Lemma drawn_singleton p : drawn [p] = content p.
Proof. unfold drawn. by rewrite bind_singleton. Qed.

Lemma drawn_addPage blank l :
  content blank = [] → drawn (pages_of (addPage blank l)) = drawn (pages_of l).
Proof.
  intros Hb. unfold pages_of, addPage; simpl.
  by rewrite !drawn_app, !drawn_singleton, Hb, app_nil_r.
Qed.

(** One iteration: the page break, if any, then the row on the current
    page. *)
Lemma item_row_step `{rt : Runtime} `{fm : Formatting} blank width l item :
  ∃ l0, (l0 = l ∨ l0 = addPage blank l)
        ∧ placed blank (lay_y l0) (item_lines width item)
        ∧ item_row blank width l item
          = {| lay_finished := lay_finished l0;
               lay_page :=
                 {| page_width := page_width (lay_page l0);
                    page_height := page_height (lay_page l0);
                    content := content (lay_page l0)
                               ++ row_ops width (lay_y l0) (item_lines width item) item |};
               lay_y := (lay_y l0 - itemHeight (item_lines width item))%float |}.
Proof.
  unfold item_row.
  destruct (lay_y l - itemHeight (item_lines width item) <? padding + 150)%float eqn:Hbreak.
  - exists (addPage blank l). split; [by right|]. split; [by left|].
    rewrite foldl_draw_on. unfold move_to; simpl. f_equal.
    generalize (row_ops width (page_height blank - padding) (item_lines width item) item).
    intros ops. generalize blank. clear. intros p. revert p.
    induction ops as [|op ops IH]; intros p; simpl.
    + rewrite app_nil_r. by destruct p.
    + rewrite IH. simpl. by rewrite <-app_assoc.
  - exists l. split; [by left|]. split; [by right|].
    rewrite foldl_draw_on. unfold move_to; simpl. f_equal.
    generalize (row_ops width (lay_y l) (item_lines width item) item).
    intros ops. generalize (lay_page l). clear. intros p. revert p.
    induction ops as [|op ops IH]; intros p; simpl.
    + rewrite app_nil_r. by destruct p.
    + rewrite IH. simpl. by rewrite <-app_assoc.
Qed.

Lemma item_row_drawn `{rt : Runtime} `{fm : Formatting} blank width l item :
  content blank = [] →
  ∃ ops, row_of blank width item ops
         ∧ drawn (pages_of (item_row blank width l item)) = drawn (pages_of l) ++ ops
         ∧ (length (pages_of (item_row blank width l item)) ≤ length (pages_of l) + 1)%nat.
Proof.
  intros Hb. destruct (item_row_step blank width l item) as (l0 & Hl0 & Hy & ->).
  exists (row_ops width (lay_y l0) (item_lines width item) item).
  split; [by exists (lay_y l0)|].
  unfold pages_of at 1 3; simpl.
  rewrite drawn_app, drawn_singleton; simpl. rewrite app_assoc.
  rewrite <-drawn_singleton, <-drawn_app.
  destruct Hl0 as [->| ->].
  - split; [done|]. unfold pages_of. rewrite !length_app. simpl. lia.
  - split; [by rewrite <-(drawn_addPage blank l Hb)|].
    unfold pages_of. simpl. rewrite !length_app. simpl. lia.
Qed.

Lemma rows_drawn `{rt : Runtime} `{fm : Formatting} blank width elements l :
  content blank = [] →
  ∃ rows, Forall2 (row_of blank width) elements rows
          ∧ drawn (pages_of (foldl (item_row blank width) l elements))
            = drawn (pages_of l) ++ concat rows
          ∧ (length (pages_of (foldl (item_row blank width) l elements))
             ≤ length (pages_of l) + length elements)%nat.
Proof.
  intros Hb. revert l. induction elements as [|item elements IH]; intros l; simpl.
  - exists []. split; [constructor|]. rewrite app_nil_r. split; [done|lia].
  - destruct (item_row_drawn blank width l item Hb) as (ops & Hops & Hd & Hn).
    destruct (IH (item_row blank width l item)) as (rows & Hrows & Hd' & Hn').
    exists (ops :: rows). split; [by constructor|].
    rewrite Hd', Hd. simpl. rewrite <-app_assoc. split; [done|lia].
Qed.

(** Page breaks lose and reorder nothing.  When [addPage()] makes an empty
    page, the drawing calls of the document after the elements section,
    read page after page, are those it held before, then the heading when
    there is an element, then the row of every element in the order of the
    list, each row placed at the top of a fresh page or above the bottom
    margin; and the section opens at most one page for the heading and one
    per element. *)
Theorem elements_section_draws_every_element_in_order `{rt : Runtime} `{fm : Formatting}
    blank width l elements :
  content blank = [] →
  ∃ head rows,
    drawn (pages_of (elements_section blank width l elements))
    = drawn (pages_of l) ++ head ++ concat rows
    ∧ Forall2 (row_of blank width) elements rows
    ∧ (head = [] ∧ elements = [] ∨ ∃ y, head = [heading y] ∧ elements ≠ [])
    ∧ (length (pages_of (elements_section blank width l elements))
       ≤ length (pages_of l) + 1 + length elements)%nat.
Proof.
  intros Hb. destruct elements as [|item elements].
  - exists [], []. simpl. rewrite app_nil_r.
    split; [done|]. split; [constructor|]. split; [by left|lia].
  - unfold elements_section.
    set (l0 := if (lay_y l <? padding + 150 + 40)%float then addPage blank l else l).
    set (l1 := move_to _ (draw_on _ l0)).
    destruct (rows_drawn blank width (item :: elements) l1 Hb) as (rows & Hrows & Hd & Hn).
    exists [heading (lay_y l0)], rows.
    assert (drawn (pages_of l0) = drawn (pages_of l)
            ∧ (length (pages_of l0) ≤ length (pages_of l) + 1)%nat) as [Hd0 Hn0].
    { unfold l0. destruct (lay_y l <? _)%float.
      - split; [by apply drawn_addPage|]. unfold pages_of; simpl.
        rewrite !length_app. simpl. lia.
      - split; [done|lia]. }
    assert (drawn (pages_of l1) = drawn (pages_of l0) ++ [heading (lay_y l0)]
            ∧ length (pages_of l1) = length (pages_of l0)) as [Hd1 Hn1].
    { unfold l1, pages_of, move_to, draw_on; simpl.
      rewrite !drawn_app, !drawn_singleton. simpl.
      rewrite app_assoc. split; [done|]. by rewrite !length_app. }
    split; [by rewrite Hd, Hd1, Hd0, <-app_assoc|].
    split; [done|]. split; [right; by exists (lay_y l0)|].
    simpl in *. lia.
Qed.

(** Two elements below a cursor that has come down to 200: the heading
    opens a second page, and two rows are drawn. *)
Lemma elements_section_draws_every_element_in_order_witness :
  content blank_page = []
  ∧ ∃ head rows,
      drawn (pages_of (elements_section (rt := plain_runtime) (fm := plain_formatting)
                         blank_page (page_width blank_page) low_layout two_rows))
      = drawn (pages_of low_layout) ++ head ++ concat rows
      ∧ length rows = 2%nat.
Proof.
  split; [reflexivity|].
  destruct (elements_section_draws_every_element_in_order (rt := plain_runtime)
              (fm := plain_formatting) blank_page (page_width blank_page)
              low_layout two_rows eq_refl)
    as (head & rows & Hdrawn & Hrows & _).
  exists head, rows. split; [exact Hdrawn|].
  by rewrite <-(Forall2_length _ _ _ Hrows).
Defined.

Lemma on_one_page_item_row `{rt : Runtime} `{fm : Formatting} blank width l item ops :
  on_one_page (pages_of l) ops →
  on_one_page (pages_of (item_row blank width l item)) ops.
Proof.
  intros (p & before & after & Hp & Hc).
  destruct (item_row_step blank width l item) as (l0 & Hl0 & _ & ->).
  assert (on_one_page (pages_of l0) ops) as (p0 & before0 & after0 & Hp0 & Hc0).
  { destruct Hl0 as [->| ->]; [by exists p, before, after|].
    exists p, before, after. split; [|done].
    unfold pages_of, addPage; simpl. apply elem_of_app. by left. }
  unfold pages_of in Hp0 |- *. simpl.
  apply elem_of_app in Hp0 as [Hp0|Hp0].
  - exists p0, before0, after0. split; [|done]. apply elem_of_app. by left.
  - apply list_elem_of_singleton in Hp0 as ->.
    eexists _, before0, (after0 ++ _). split; [apply elem_of_app; right; by left|].
    simpl. rewrite Hc0. by rewrite <-!app_assoc.
Qed.

Lemma on_one_page_rows `{rt : Runtime} `{fm : Formatting} blank width elements l ops :
  on_one_page (pages_of l) ops →
  on_one_page (pages_of (foldl (item_row blank width) l elements)) ops.
Proof.
  revert l. induction elements as [|item elements IH]; intros l H; simpl; [done|].
  by apply IH, on_one_page_item_row.
Qed.

Lemma item_row_on_one_page `{rt : Runtime} `{fm : Formatting} blank width l item :
  ∃ ops, row_of blank width item ops
         ∧ on_one_page (pages_of (item_row blank width l item)) ops.
Proof.
  destruct (item_row_step blank width l item) as (l0 & _ & Hy & ->).
  exists (row_ops width (lay_y l0) (item_lines width item) item).
  split; [by exists (lay_y l0)|].
  eexists _, (content (lay_page l0)), [].
  split; [unfold pages_of; apply elem_of_app; right; by left|].
  simpl. by rewrite app_nil_r.
Qed.

Lemma rows_on_one_page `{rt : Runtime} `{fm : Formatting} blank width elements l :
  Forall (λ item, ∃ ops, row_of blank width item ops
            ∧ on_one_page (pages_of (foldl (item_row blank width) l elements)) ops)
    elements.
Proof.
  revert l. induction elements as [|item elements IH]; intros l; simpl; [constructor|].
  constructor; [|apply IH].
  destruct (item_row_on_one_page blank width l item) as (ops & Hops & Hon).
  exists ops. split; [done|]. by apply on_one_page_rows.
Qed.

(** A row is never split: for every element, the description lines, the
    quantity, the check box and its label are drawn next to each other on
    one page of the document the section leaves. *)
Theorem element_row_is_never_split `{rt : Runtime} `{fm : Formatting}
    blank width l elements :
  Forall (λ item, ∃ ops, row_of blank width item ops
            ∧ on_one_page (pages_of (elements_section blank width l elements)) ops)
    elements.
Proof.
  destruct elements as [|item elements]; [constructor|].
  unfold elements_section. apply rows_on_one_page.
Qed.

Lemma rows_last `{rt : Runtime} `{fm : Formatting} blank width elements item l :
  ∃ ops before p,
    row_of blank width item ops
    ∧ last (pages_of (foldl (item_row blank width) l (elements ++ [item]))) = Some p
    ∧ content p = before ++ ops.
Proof.
  rewrite foldl_app. simpl.
  destruct (item_row_step blank width (foldl (item_row blank width) l elements) item)
    as (l0 & _ & Hy & ->).
  eexists _, (content (lay_page l0)), _.
  split; [by exists (lay_y l0)|].
  unfold pages_of; simpl. by rewrite last_snoc.
Qed.

(** The signature block lands under the last element: after the elements
    section and the pass over the finished pages, the last page of the
    document holds the row of the last element and, right after it, the
    signature box, rule and labels, followed by footer texts only. *)
Theorem signature_block_follows_the_last_row `{rt : Runtime} `{fm : Formatting}
    blank width settings shipment l elements item :
  ∃ ops before p rest,
    row_of blank width item ops
    ∧ last (finalize width settings shipment
              (pages_of (elements_section blank width l (elements ++ [item])))) = Some p
    ∧ content p
      = before ++ ops
        ++ [ DrawRectangle 40 60 (page_width p - 80) 60 (0, 0, 0) 1.5;
             DrawLine 40 100 (page_width p - 40) 100 0.5 (0.75, 0.75, 0.75);
             DrawText "Sender Signature:" 50 105 Helvetica 10 None;
             DrawText "Recipient Signature:" (width / 2 + 10) 105 Helvetica 10 None
           ]%float
        ++ rest
    ∧ Forall on_footer_line rest.
Proof.
  assert (∃ l1, elements_section blank width l (elements ++ [item])
                = foldl (item_row blank width) l1 (elements ++ [item])) as [l1 ->].
  { unfold elements_section. destruct elements; by eexists. }
  destruct (rows_last blank width elements item l1)
    as (ops & before & p & Hops & Hlast & Hp).
  set (pages := pages_of _) in *.
  rewrite last_lookup in Hlast.
  pose proof (finalize_lookup width settings shipment pages _ p Hlast) as Hfin.
  assert (length (finalize width settings shipment pages) = length pages) as Hlen.
  { unfold finalize. by apply footer_loop_spec. }
  exists ops, before, (stamp width settings shipment (length pages) (pred (length pages)) p).
  exists (match disclaimer settings with
          | Some text => [DrawText text padding padding Helvetica 8 (Some grey)]
          | None => []
          end
          ++ [DrawText (creationDate shipment)
                (page_width p - padding
                 - widthOfTextAtSize Helvetica (creationDate shipment) 10)%float
                padding Helvetica 10 (Some grey)]
          ++ [DrawText (pageNumberText (pred (length pages)) (length pages))
                ((page_width p
                  - widthOfTextAtSize Helvetica
                      (pageNumberText (pred (length pages)) (length pages)) 10) / 2)%float
                padding Helvetica 10 (Some grey)]).
  split; [done|]. split; [by rewrite last_lookup, Hlen|].
  assert (page_width (stamp width settings shipment (length pages) (pred (length pages)) p)
          = page_width p) as ->.
  { unfold stamp. generalize (footer width settings shipment (length pages)
                                (pred (length pages)) (page_width p)).
    intros fs. generalize p. clear. intros p. revert p.
    induction fs as [|op fs IH]; intros p; simpl; [done|]. by rewrite IH. }
  split.
  - unfold stamp. rewrite content_foldl_draw, Hp. unfold footer.
    rewrite bool_decide_eq_true_2 by lia. rewrite <-!app_assoc. reflexivity.
  - destruct (disclaimer settings); repeat constructor; by repeat eexists.
Qed.

(** * More on the handlers *)

Lemma serve_settled {A} (t : task A) n c :
  (∀ B (call : M B) k, t ≠ Await call k) →
  serve (replicate n 0%nat) [t] c = ([t], c).
Proof.
  intros Hsettled. induction n as [|n IH]; simpl; [done|].
  destruct t as [a|e|B call k]; simpl; try done.
  by destruct (Hsettled B call k).
Qed.

(** Serving a single request turn by turn is running its handler: after
    enough turns the request is settled with the outcome, and the
    connection is in the state, that [run] gives, and further turns change
    nothing. *)
Lemma served_alone_is_run {A} (t : task A) c :
  ∃ turns, ∀ n, (turns ≤ n)%nat →
    serve (replicate n 0%nat) [t] c = ([settled (run t c).1], (run t c).2).
Proof.
  revert c. induction t as [a|e|B call k IH]; intros c.
  - exists 0%nat. intros n _. by apply serve_settled.
  - exists 0%nat. intros n _. by apply serve_settled.
  - simpl. destruct (call c) as [r c'] eqn:Hcall.
    destruct (IH r c') as [turns Hturns].
    exists (S turns). intros n Hn. destruct n as [|n]; [lia|].
    simpl. rewrite Hcall. simpl. apply Hturns. lia.
Qed.



(** Whatever its outcome, [initializeDatabase] run outside a transaction
    ends outside any transaction, touches no row of the other tables and
    changes no counter row that is there: a restart never resets a
    counter.  When it resolves, both counter rows are there, each holding
    what it held, or 1000 when it was absent. *)
Theorem start_up_never_resets_a_counter c o c' :
  txn c = None →
  run initializeDatabase c = (o, c') →
  txn c' = None
  ∧ same_rows (durable c) (durable c')
  ∧ (∀ name n, counters (durable c) !! name = Some n →
               counters (durable c') !! name = Some n)
  ∧ (o = Ok () →
     counters (durable c') !! "shipmentCounter"
       = Some (default 1000 (counters (durable c) !! "shipmentCounter"))
     ∧ counters (durable c') !! "deliveryNoteCounter"
       = Some (default 1000 (counters (durable c) !! "deliveryNoteCounter"))).
Proof.
  intros Hidle Hrun.
  pose proof (initializeDatabase_run c Hidle) as Hpost.
  rewrite Hrun in Hpost; simpl in Hpost.
  destruct Hpost as (d & [Hd Ht] & Hrows & Hkeep & Hcounters).
  rewrite Hd. do 3 (split; [done|]). intros ->. rewrite Hcounters. split.
  - apply ensure_counter_keeps, ensure_counter_lookup.
  - by rewrite ensure_counter_lookup, ensure_counter_other.
Qed.

(** A restart after the first shipment: the counter still holds 1001. *)
Lemma start_up_never_resets_a_counter_witness :
  restarted.1 = Ok ()
  ∧ counters (durable restarted.2) !! "shipmentCounter" = Some 1001
  ∧ shipments (durable restarted.2) = shipments (durable first_parcel.2).
Proof.
  split; [reflexivity|].
  destruct (start_up_never_resets_a_counter first_parcel.2 (Ok ()) restarted.2 eq_refl)
    as (_ & Hrows & Hkept & _); [by vm_compute|].
  split; [by apply Hkept|apply Hrows].
Defined.

(** A delivery-note creation served on its own that is answered 500 leaves
    the connection outside any transaction and on the tables it started
    from: no note, no item and no number is kept. *)
Theorem lone_note_failure_is_rolled_back `{rt : Runtime} `{st : Storage}
    body now c c' e :
  txn c = None →
  run (post_delivery_notes body now) c = (Ok (ServerError e), c') →
  txn c' = None ∧ durable c' = durable c.
Proof.
  intros Hidle Hrun.
  pose proof (post_delivery_notes_run body now c Hidle) as Hpost.
  rewrite Hrun in Hpost; simpl in Hpost. by destruct Hpost as [Hd Ht].
Qed.

(** The storage layer rejects the UPDATE of the counter, after the note
    and its two items have been inserted. *)
Lemma lone_note_failure_is_rolled_back_witness :
  rejected_note.1 = Ok (ServerError SqliteFailure)
  ∧ txn rejected_note.2 = None
  ∧ durable rejected_note.2 = initial_db.
Proof.
  split; [reflexivity|].
  apply (lone_note_failure_is_rolled_back (rt := plain_runtime) (st := plain_storage)
           (note (Some <$> two_items)) "2025-01-31T08:00:00.000Z"%string
           (connect initial_db [false; false; false; false; true]) rejected_note.2
           SqliteFailure eq_refl).
  by vm_compute.
Defined.

Lemma never_ret {A} (a b : A) : a ≠ b → never_resolves_to a (mret b).
Proof. intros Hne c [=]. congruence. Qed.

Lemma never_throw {A} (a : A) e : never_resolves_to a (throw e).
Proof. by intros c. Qed.

Lemma never_bind {A B} (b : B) (t : task A) (k : A → task B) :
  (∀ a, never_resolves_to b (k a)) → never_resolves_to b (t ≫= k).
Proof.
  intros Hk c. rewrite run_bind. destruct (run t c) as [[a|e] c'] eqn:Hm; simpl.
  - apply Hk.
  - done.
Qed.

Lemma never_try_catch {A} (a : A) (t : task A) (h : error → task A) :
  never_resolves_to a t → (∀ e, never_resolves_to a (h e)) →
  never_resolves_to a (try_catch t h).
Proof.
  intros Ht Hh c. rewrite run_try_catch. specialize (Ht c).
  destruct (run t c) as [[a'|e] c'] eqn:Hrun; simpl in *; [done|apply Hh].
Qed.

(** The answer is 400 exactly when the validation fails, for both creation
    handlers: a body that lacks a required field is answered 400 with no
    statement sent, and a body that has them all is never answered 400,
    whatever happens on the connection. *)
Theorem bad_request_exactly_when_a_required_field_is_missing
    `{rt : Runtime} `{st : Storage} :
  (∀ body now c,
     (lacks_required_field body = true →
      run (post_shipments body now) c = (Ok BadRequest, c))
     ∧ (lacks_required_field body = false →
        (run (post_shipments body now) c).1 ≠ Ok BadRequest))
  ∧ (∀ body now c,
     (lacks_note_field body = true →
      run (post_delivery_notes body now) c = (Ok BadRequest, c))
     ∧ (lacks_note_field body = false →
        (run (post_delivery_notes body now) c).1 ≠ Ok BadRequest)).
Proof.
  split; intros body now c; split.
  - unfold post_shipments, lacks_required_field. by intros ->.
  - unfold post_shipments, lacks_required_field. intros ->.
    apply never_try_catch.
    + repeat (apply never_bind; intros ?). by apply never_ret.
    + intros e. apply never_bind. intros _. by apply never_ret.
  - unfold post_delivery_notes, lacks_note_field.
    destruct (items body); [|done]. by intros ->.
  - unfold post_delivery_notes, lacks_note_field.
    destruct (items body); [|done]. intros ->.
    apply never_try_catch.
    + repeat (apply never_bind; intros ?). by apply never_ret.
    + intros e. apply never_bind. intros _. by apply never_ret.
Qed.

Lemma tracking_number_inj : Inj (=) (=) (λ n : Z, "T" +:+ pretty n).
Proof. intros m n [= Heq]. by apply (inj pretty). Qed.

Lemma post_all_counts `{rt : Runtime} `{st : Storage} requests c n os c' :
  txn c = None →
  counters (durable c) !! "shipmentCounter" = Some n →
  0 ≤ n → n + Z.of_nat (length requests) < 2 ^ 53 →
  post_all requests c = (os, c') →
  Forall answered os →
  txn c' = None
  ∧ counters (durable c') !! "shipmentCounter" = Some (n + Z.of_nat (length (created os)))
  ∧ created os
    = (λ k, "T" +:+ pretty (n + Z.of_nat k)) <$> seq 1 (length (created os)).
Proof.
  revert c n os c'. induction requests as [|[body now] rest IH];
    intros c n os c' Hidle Hrow Hn Hbound Hrun Hans; simpl in Hrun.
  - injection Hrun as <- <-. simpl. by rewrite Z.add_0_r.
  - pose proof (post_shipments_run body now c Hidle) as Hpost.
    destruct (run (post_shipments body now) c) as [o c1].
    destruct (post_all rest c1) as [os' c2] eqn:Hrest.
    injection Hrun as <- <-. inversion_clear Hans as [|? ? Ho Hos]. simpl in Hpost.
    simpl length in Hbound.
    destruct o as [[tn|id dn| |e]|e]; simpl in Hpost, Ho; try done.
    + destruct Hpost as (d' & [Hd' Ht'] & Htn & Hcnt & _).
      unfold newCount_of in Htn, Hcnt. rewrite Hrow in Htn, Hcnt; simpl in Htn, Hcnt.
      rewrite plus_one_exact in Htn, Hcnt by lia.
      destruct (IH c1 (n + 1) os' c2) as (Ht2 & Hc2 & Hcreated); try done; try lia.
      { by rewrite Hd', Hcnt, lookup_alter_eq, Hrow. }
      change (created (Ok (Created tn) :: os')) with (tn :: created os').
      split; [done|]. split.
      * rewrite Hc2. f_equal. simpl length. lia.
      * rewrite Htn, Hcreated at 1. simpl length. simpl seq. rewrite fmap_cons. f_equal.
        rewrite <-(fmap_S_seq 1), <-list_fmap_compose.
        apply list_fmap_ext. intros _ k _. simpl. do 2 f_equal. lia.
    + destruct Hpost as [Hd' Ht']. apply (IH c1 n os' c2); try done; try lia.
      by rewrite Hd'.
    + destruct Hpost as [Hd' Ht']. apply (IH c1 n os' c2); try done; try lia.
      by rewrite Hd'.
Qed.

(** Shipment creations served one after the other, each of them answered:
    the tracking numbers of those answered 201 are T followed by the
    counts after the one the counter held, in order and with no gap, so no
    two of them are the same and no number is spent on a request that
    failed; the counter ends on the last number handed out.  The counts
    stay below 2^53. *)
Theorem consecutive_shipments_get_consecutive_numbers `{rt : Runtime} `{st : Storage}
    requests c n os c' :
  txn c = None →
  counters (durable c) !! "shipmentCounter" = Some n →
  0 ≤ n → n + Z.of_nat (length requests) < 2 ^ 53 →
  post_all requests c = (os, c') →
  Forall answered os →
  created os = (λ k, "T" +:+ pretty (n + Z.of_nat k)) <$> seq 1 (length (created os))
  ∧ NoDup (created os)
  ∧ counters (durable c') !! "shipmentCounter" = Some (n + Z.of_nat (length (created os))).
Proof.
  intros Hidle Hrow Hn Hbound Hrun Hans.
  destruct (post_all_counts requests c n os c' Hidle Hrow Hn Hbound Hrun Hans)
    as (_ & Hcnt & Hcreated).
  split; [done|]. split; [|done].
  rewrite Hcreated. apply NoDup_fmap_2_strong; [|apply NoDup_seq].
  intros j k _ _ Heq. apply tracking_number_inj in Heq. lia.
Qed.

(** Two creations on the initial tables. *)
Lemma consecutive_shipments_get_consecutive_numbers_witness :
  created two_parcels.1 = ["T1001"; "T1002"]
  ∧ counters (durable two_parcels.2) !! "shipmentCounter" = Some 1002.
Proof.
  destruct (consecutive_shipments_get_consecutive_numbers (rt := plain_runtime)
              (st := plain_storage)
              [(parcel None, "2025-01-31T08:00:00.000Z"%string);
               (parcel None, "2025-01-31T08:05:00.000Z"%string)]
              (connect initial_db []) 1000 two_parcels.1 two_parcels.2)
    as (Hcreated & _ & Hcounter);
    [reflexivity|reflexivity|done|done|by vm_compute|by repeat constructor| ].
  split; [exact Hcreated|exact Hcounter].
Defined.
